(** * Pharmaceutical data processor: the chunked RAG extraction pipeline

    A shallow embedding of [data_processor.py] (class [DataProcessor]) and
    [vectordb_setup.py] (function [build_vector_db]).

    Conventions.
    - A Python [str] is a Rocq [string]; a character is a code point below
      256.
    - A pandas DataFrame is the list of its rows, in index order.
    - Code that can raise returns a [result]; the collaborators the code
      calls into (pandas I/O, Ollama, Chroma, the chat model) are Section
      variables returning an [outcome].
    - [print] writes to the console only and is left out; the progress
      callback is kept as a log of the calls made to it. *)

From Stdlib Require Import ZArith Lia Ascii String DecimalString List.
From stdpp Require Import base list strings gmap.

Local Open Scope Z_scope.

(** ** Exceptions and results *)

(** The exceptions the modelled code can meet.  All of them derive from
    Python's [Exception], which is what the [except Exception] clauses of
    the source catch. *)
Inductive exception : Type :=
| ZeroDivisionError
| ValueError (msg : string)
| TypeError (msg : string)
| IndexError (msg : string)
| AttributeError (msg : string)
| CollaboratorError (what : string).

Global Instance exception_eq_dec : EqDecision exception.
Proof. solve_decision. Defined.

Inductive result (A : Type) : Type :=
| Ok (a : A)
| Raise (e : exception).
Global Arguments Ok {A} a.
Global Arguments Raise {A} e.

Definition bind {A B} (r : result A) (k : A -> result B) : result B :=
  match r with
  | Ok a => k a
  | Raise e => Raise e
  end.

Notation "'let*' x ':=' r 'in' k" := (bind r (fun x => k))
  (at level 10, x name, r at level 100, k at level 200).

Definition raises {A} (r : result A) : bool :=
  match r with Ok _ => false | Raise _ => true end.

(** What a call into a collaborator gives back: a value, or a failure of the
    collaborator's own. *)
Inductive outcome (A : Type) : Type :=
| Done (a : A)
| Failed (what : string).
Global Arguments Done {A} a.
Global Arguments Failed {A} what.

Definition call {A} (o : outcome A) : result A :=
  match o with
  | Done a => Ok a
  | Failed w => Raise (CollaboratorError w)
  end.

(** ** Batcher *)

Module Batcher.

(** [math.ceil(n / c)] on integers.  The source divides as floats; the
    quotient of two integers below 2^53 is rounded to less than the
    distance to the next integer, so the ceiling is the exact one. *)
Definition math_ceil_div (n c : Z) : result Z :=
  if c =? 0 then Raise ZeroDivisionError else Ok (- ((- n) / c)).

(** Python's [l[st:en]] for indices that are not negative. *)
Definition slice {A} (st en : nat) (l : list A) : list A :=
  drop st (take en l).

(** numpy's [cumsum]. *)
Fixpoint cumsum_from (acc : nat) (l : list nat) : list nat :=
  match l with
  | [] => []
  | x :: l' => (acc + x)%nat :: cumsum_from (acc + x)%nat l'
  end.

Definition cumsum : list nat -> list nat := cumsum_from 0%nat.

(** [section_sizes] of [numpy.array_split] for an integer section count:
    [[0] + extras * [Neach_section + 1] + (Nsections - extras) * [Neach_section]]. *)
Definition section_sizes (Ntotal Nsections : nat) : list nat :=
  let Neach_section := (Ntotal / Nsections)%nat in
  let extras := (Ntotal mod Nsections)%nat in
  [0%nat] ++ replicate extras (Neach_section + 1)%nat
          ++ replicate (Nsections - extras)%nat Neach_section.

(** [numpy.array_split(ary, indices_or_sections)] along axis 0, for an
    integer second argument. *)
Definition array_split {A} (ary : list A) (indices_or_sections : Z)
  : result (list (list A)) :=
  if indices_or_sections <=? 0
  then Raise (ValueError "number sections must be larger than 0.")
  else
    let Nsections := Z.to_nat indices_or_sections in
    let div_points := cumsum (section_sizes (length ary) Nsections) in
    Ok (map (fun i => slice (nth i div_points 0%nat)
                            (nth (S i) div_points 0%nat) ary)
            (seq 0 Nsections)).

(** [DataProcessor.split_data_into_chunks]. *)
Definition split_data_into_chunks {A} (chunk_size : Z) (df : list A)
  : result (list (list A)) :=
  let* chunk_amount := math_ceil_div (Z.of_nat (length df)) chunk_size in
  array_split df chunk_amount.

End Batcher.

(** ** Python strings *)

Module PyStr.

Definition newline : ascii := "010"%char.
Definition comma : ascii := ","%char.
Definition space : ascii := " "%char.

(** [str.isspace] on the code points below 256: U+0009 to U+000D, U+001C to
    U+0020, U+0085 and U+00A0. *)
Definition isspace (c : ascii) : bool :=
  let n := nat_of_ascii c in
  ((9 <=? n) && (n <=? 13) || (28 <=? n) && (n <=? 32)
   || (n =? 133) || (n =? 160))%nat.

Fixpoint lstrip (s : string) : string :=
  match s with
  | EmptyString => EmptyString
  | String c s' => if isspace c then lstrip s' else s
  end.

Fixpoint rstrip (s : string) : string :=
  match s with
  | EmptyString => EmptyString
  | String c s' =>
      match rstrip s' with
      | EmptyString => if isspace c then EmptyString else String c EmptyString
      | t => String c t
      end
  end.

(** [s.strip()]. *)
Definition strip (s : string) : string := lstrip (rstrip s).

(** [s.split(sep)] for a separator of one character. *)
Fixpoint split (sep : ascii) (s : string) : list string :=
  match s with
  | EmptyString => [EmptyString]
  | String c s' =>
      if Ascii.eqb c sep then EmptyString :: split sep s'
      else match split sep s' with
           | field :: fields => String c field :: fields
           | [] => [String c EmptyString]
           end
  end.

(** [sep.join(parts)]. *)
Fixpoint join (sep : string) (parts : list string) : string :=
  match parts with
  | [] => EmptyString
  | [p] => p
  | p :: rest => p +:+ sep +:+ join sep rest
  end.

(** [s.replace(old, new)] for single characters. *)
Fixpoint replace (old new : ascii) (s : string) : string :=
  match s with
  | EmptyString => EmptyString
  | String c s' => String (if Ascii.eqb c old then new else c) (replace old new s')
  end.

(** [s.lower()] on the ASCII letters. *)
Definition lower_chr (c : ascii) : ascii :=
  let n := nat_of_ascii c in
  if ((65 <=? n) && (n <=? 90))%nat then ascii_of_nat (n + 32) else c.

Fixpoint lower (s : string) : string :=
  match s with
  | EmptyString => EmptyString
  | String c s' => String (lower_chr c) (lower s')
  end.

(** Number of occurrences of a character. *)
Fixpoint count (c : ascii) (s : string) : nat :=
  match s with
  | EmptyString => 0%nat
  | String c' s' => ((if Ascii.eqb c' c then 1 else 0) + count c s')%nat
  end.

(** [str(n)] for a natural number. *)
Definition of_nat (n : nat) : string :=
  DecimalString.NilZero.string_of_uint (Nat.to_uint n).

End PyStr.

(** ** Tables *)

(** A cell of a spreadsheet as pandas hands it over. *)
Inductive cell : Type :=
| CNaN                    (* an empty cell: the float NaN *)
| CNone                   (* None *)
| CNaT                    (* a missing date *)
| CNum (m e : Z)          (* a number, the integer or double of value m * 10^e *)
| CBool (b : bool)
| CText (s : string)
| CTime (stamp : string). (* a date or time *)

(** A Python float as far as the code looks at it.  [FNearest m e] is the
    double nearest to [m * 10^e], an infinity when that is beyond the range of
    doubles; it is never a NaN.  The sign of a zero is not kept. *)
Inductive pyfloat : Type :=
| FNaN
| FInf (negative : bool)
| FNearest (m e : Z).

(** The table that [_parse_results] builds: column labels and rows of text,
    [None] where pandas had to pad a short row. *)
Record DataFrame : Type := {
  columns : list string;
  rows : list (list (option string))
}.

Definition pad_row (width : nat) (row : list string) : list (option string) :=
  map Some row ++ replicate (width - length row)%nat None.

(** [pd.DataFrame(data, columns=columns)] on a list of lists of strings:
    rows are padded to the longest one, and the number of labels has to be
    that width unless there is no row at all. *)
Definition pd_DataFrame (data : list (list string)) (cols : list string)
  : result DataFrame :=
  match data with
  | [] => Ok {| columns := cols; rows := [] |}
  | _ =>
      let width := max_list (map length data) in
      if (length cols =? width)%nat
      then Ok {| columns := cols; rows := map (pad_row width) data |}
      else Raise (ValueError (PyStr.of_nat (length cols)
                              +:+ " columns passed, passed data had "
                              +:+ PyStr.of_nat width +:+ " columns"))
  end.

(** ** Records of the similarity index *)

Inductive mvalue : Type :=
| MInt (z : Z)
| MStr (s : string)
| MFloat (f : pyfloat).

(** langchain's [Document]. *)
Record Document : Type := {
  page_content : string;
  metadata : gmap string mvalue
}.

(** The answer of the chat model; the code reads its [content] only. *)
Record AIMessage : Type := { content : string }.

(** The dictionary handed to [chain.invoke]. *)
Record ChainInput : Type := {
  data : string;
  reference : string;
  prompt : string;
  format : string
}.

(** ** Collaborators *)

(** Everything the two programs call and do not define: pandas' Excel
    reader, Python's [str] on cell and metadata values, the Ollama embedding
    and chat models and the Chroma store. *)
Class Collaborators : Type := {
  embeddings : Type;
  vector : Type;
  vectorstore : Type;
  chat_model : Type;
  (** [pd.read_excel(path)] followed by [.values]: rows of cells. *)
  read_excel_values : string -> outcome (list (list cell));
  (** [pd.read_excel(path)], each row as a Series indexed by column label. *)
  read_excel_rows : string -> outcome (list (gmap string cell));
  (** [str(cell)], also what an f-string puts in for a cell. *)
  str_cell : cell -> string;
  (** What an f-string puts in for a metadata value read back from the store. *)
  format_value : mvalue -> outcome string;
  (** [OllamaEmbeddings(model=name)]. *)
  OllamaEmbeddings : string -> outcome embeddings;
  (** One text embedded by the embedding service. *)
  embed : embeddings -> string -> outcome vector;
  (** [Chroma(persist_directory=path, embedding_function=embeddings)]. *)
  Chroma : string -> embeddings -> outcome vectorstore;
  (** [ChatOllama(model=name)]. *)
  ChatOllama : string -> outcome chat_model;
  (** [vectorstore.similarity_search(query, k=k)]. *)
  similarity_search : vectorstore -> string -> Z -> outcome (list Document);
  (** [(ChatPromptTemplate.from_template(template) | model).invoke(input)]. *)
  chain_invoke : string -> chat_model -> ChainInput -> outcome AIMessage
}.

(** ** The processor ([data_processor.py]) *)

Module Processor.

Record ProcessingConfig : Type := {
  model_num : Z;
  chunk_size : Z;
  vector_db_path : string;
  similarity_search_k : Z
}.

(** [ProcessingConfig(model_num=n)], the other fields at their defaults. *)
Definition default_config (n : Z) : ProcessingConfig :=
  {| model_num := n; chunk_size := 10;
     vector_db_path := "./chroma_db"; similarity_search_k := 3 |}.

(** [l[i]] on a Python list. *)
Definition getitem {A} (l : list A) (i : Z) : result A :=
  let j := if i <? 0 then i + Z.of_nat (length l) else i in
  if j <? 0 then Raise (IndexError "list index out of range")
  else match l !! Z.to_nat j with
       | Some x => Ok x
       | None => Raise (IndexError "list index out of range")
       end.

(** What the progress callback is called with. *)
Inductive status : Type :=
| Initializing              (* Initializing RAG system... *)
| Loading                   (* Loading data... *)
| ProcessingChunk (i total : nat)   (* Processing chunk i of total... *)
| Finalizing.               (* Finalizing results... *)

(** One call of the callback: the message and, when the code passes it,
    the progress [i / total] as the pair of its numerator and denominator. *)
Definition progress_call : Type := status * option (nat * nat).

Definition template : string := "
        You are an expert pharmaceutical data analyst specializing in extracting dosage information from patient instructions.

        Here is the raw data to process: {data}
        Here are relevant reference examples from similar cases: {reference}
        Task: {prompt}
        Output format: {format}

        Important Instructions:
        - Use the reference examples to understand how similar raw data was processed
        - Extract daily frequency (how many times per day), dose amount in mg, and duration in days
        - Look for patterns in the reference examples that match your input data
        - If there is an exact match in the reference examples use that, otherwise do your best to determine what the 
          correct values are based on the other examples in the reference
        - If uncertain about any value, use 0
        - Focus on numerical extraction only
        ".

(** [_get_extraction_prompt]. *)
Definition _get_extraction_prompt : string :=
  "For every row in the data extract the daily frequency, dose amount in mg, and duration values in numeric values. "
  +:+ "Use the reference examples to understand the correct patterns for extraction. "
  +:+ "If there are any values you are unsure of, put a 0. /no think".

(** [_get_format_instructions]. *)
Definition _get_format_instructions : string :=
  "Comma separated list with daily frequency, dose amount in mg, and duration values. No units. New line after every row.".

Definition no_reference : string := "No reference data available".

Definition output_columns : list string :=
  ["Daily Frequency"; "Dose"; "Duration"].

(** The body of the inner loop of [_parse_results]. *)
Definition parse_line (parsed_rows : list (list string)) (line : string)
  : list (list string) :=
  let values := map PyStr.strip (PyStr.split PyStr.comma line) in
  if (length values =? 3)%nat then parsed_rows ++ [values] else parsed_rows.

(** The body of its outer loop. *)
Definition parse_result (parsed_rows : list (list string)) (result : AIMessage)
  : list (list string) :=
  let lines := PyStr.split PyStr.newline (PyStr.strip (content result)) in
  fold_left parse_line lines parsed_rows.

(** [DataProcessor._parse_results]. *)
Definition _parse_results (results : list AIMessage) : result DataFrame :=
  let parsed_rows := fold_left parse_result results [] in
  pd_DataFrame parsed_rows output_columns.

(** The parser as the specification words it: the lines of a response, the
    trimmed comma-separated fields of a line, and the rows kept, those of
    the lines with exactly three fields. *)
Definition lines_of (response : string) : list string :=
  PyStr.split PyStr.newline (PyStr.strip response).

Definition fields (line : string) : list string :=
  map PyStr.strip (PyStr.split PyStr.comma line).

Definition kept_rows (response : string) : list (list string) :=
  map fields (filter (fun line => length (fields line) = 3%nat)
                     (lines_of response)).

(** The table with the output columns and the given rows of text. *)
Definition table_of (parsed_rows : list (list string)) : DataFrame :=
  {| columns := output_columns; rows := map (map Some) parsed_rows |}.

Section WithCollaborators.
Context `{Collaborators}.

(** The object: its configuration and the two handles, [None] until
    [initialize_rag_system] has run. *)
Record DataProcessor : Type := {
  config : ProcessingConfig;
  self_vectorstore : option vectorstore;
  self_model : option chat_model
}.

(** [DataProcessor(config)]. *)
Definition new (cfg : ProcessingConfig) : DataProcessor :=
  {| config := cfg; self_vectorstore := None; self_model := None |}.

Definition models : list string :=
  ["qwen3:14b"; "qwen3:32b"; "llama3.2:latest"; "gpt-oss:20b"].

Definition choose_model (n : Z) : result chat_model :=
  let* name := getitem models n in
  call (ChatOllama name).

(** [initialize_rag_system]: the object with its two handles set.  When
    a step raises the run is over and the object is not used again. *)
Definition initialize_rag_system (self : DataProcessor)
  : result DataProcessor :=
  let* emb := call (OllamaEmbeddings "nomic-embed-text") in
  let* store := call (Chroma (vector_db_path (config self)) emb) in
  let* model := choose_model (model_num (config self)) in
  Ok {| config := config self;
        self_vectorstore := Some store;
        self_model := Some model |}.

Definition load_data (file_path : string) : result (list (list cell)) :=
  call (read_excel_values file_path).

Definition split_data_into_chunks (self : DataProcessor)
    (df : list (list cell)) : result (list (list (list cell))) :=
  Batcher.split_data_into_chunks (chunk_size (config self)) df.

(** [metadata.get(key, default)] put into an f-string. *)
Definition get_formatted (md : gmap string mvalue) (key : string)
    (dflt : mvalue) : result string :=
  call (format_value (default dflt (md !! key))).

(** The f-string built for one retrieved document. *)
Definition format_example (doc : Document) : result string :=
  let md := metadata doc in
  let* name := get_formatted md "raw_antibiotic_name" (MStr EmptyString) in
  let* dose_text := get_formatted md "raw_dose_quantity" (MStr EmptyString) in
  let* instr := get_formatted md "patient_instructions" (MStr EmptyString) in
  let* freq := get_formatted md "clean_frequency" (MInt 0) in
  let* dose := get_formatted md "clean_dose" (MInt 0) in
  let* duration := get_formatted md "clean_duration" (MInt 0) in
  Ok ("Example Input: Raw Antibiotic: '" +:+ name +:+ "' | "
      +:+ "Raw Dose: '" +:+ dose_text +:+ "' | "
      +:+ "Instructions: '" +:+ instr +:+ "'" +:+ String PyStr.newline EmptyString
      +:+ "Extracted Output: "
      +:+ "Daily Frequency: " +:+ freq +:+ ", "
      +:+ "Dose: " +:+ dose +:+ "mg, "
      +:+ "Duration: " +:+ duration +:+ " days" +:+ String PyStr.newline EmptyString).

(** The loop over the retrieved documents. *)
Fixpoint format_examples (docs : list Document) (examples : list string)
  : result (list string) :=
  match docs with
  | [] => Ok examples
  | doc :: rest =>
      let* example := format_example doc in
      format_examples rest (examples ++ [example])
  end.

(** The [try] block of [_get_reference_examples]. *)
Definition reference_examples_try (self : DataProcessor)
    (chunk_text : string) : result string :=
  let* store :=
    match self_vectorstore self with
    | Some store => Ok store
    | None => Raise (AttributeError
                "'NoneType' object has no attribute 'similarity_search'")
    end in
  let* docs := call (similarity_search store chunk_text
                       (similarity_search_k (config self))) in
  let* examples := format_examples docs [] in
  Ok (PyStr.join (String PyStr.newline EmptyString) examples).

(** [DataProcessor._get_reference_examples]: the [try] block, and the
    sentinel from the [except Exception] clause. *)
Definition _get_reference_examples (self : DataProcessor)
    (chunk_text : string) : string :=
  match reference_examples_try self chunk_text with
  | Ok text => text
  | Raise _ => no_reference
  end.

(** The text of a chunk: cells joined by [" | "], rows by a newline. *)
Definition chunk_text_of (chunk : list (list cell)) : string :=
  PyStr.join (String PyStr.newline EmptyString)
    (map (fun row =>
            PyStr.join " | "
              (map (fun c => PyStr.replace PyStr.newline PyStr.space (str_cell c))
                   row))
         chunk).

(** [_create_processing_chain]: the prompt template piped into the model.
    Piping into [None] is a type error. *)
Definition _create_processing_chain (self : DataProcessor)
  : result (string * chat_model) :=
  match self_model self with
  | Some model => Ok (template, model)
  | None => Raise (TypeError "Expected a Runnable, callable or dict.")
  end.

(** [DataProcessor._process_chunk]. *)
Definition _process_chunk (self : DataProcessor) (chunk : list (list cell))
  : result AIMessage :=
  let chunk_text := chunk_text_of chunk in
  let reference_examples := _get_reference_examples self chunk_text in
  let* chain := _create_processing_chain self in
  call (chain_invoke (fst chain) (snd chain)
          {| data := chunk_text;
             reference := reference_examples;
             prompt := _get_extraction_prompt;
             format := _get_format_instructions |}).

(** A call of the progress callback, when there is one.  The callback
    is taken to return: one that raises is not modelled. *)
Definition notify (progress_callback : bool) (log : list progress_call)
    (c : progress_call) : list progress_call :=
  if progress_callback then log ++ [c] else log.

(** The loop of [process_data] over [enumerate(chunks)], from index [i]
    on; [total] is [len(chunks)]. *)
Fixpoint process_chunks (self : DataProcessor) (progress_callback : bool)
    (total i : nat) (chunks : list (list (list cell)))
    (results : list AIMessage) (log : list progress_call)
  : list AIMessage * list progress_call :=
  match chunks with
  | [] => (results, log)
  | chunk :: rest =>
      let log := notify progress_callback log
                   (ProcessingChunk (i + 1) total, Some (i, total)) in
      match _process_chunk self chunk with
      | Ok result =>
          process_chunks self progress_callback total (S i) rest
            (results ++ [result]) log
      | Raise _ =>
          process_chunks self progress_callback total (S i) rest results log
      end
  end.

(** [DataProcessor.process_data]: the calls made to the callback and the
    table returned or the exception raised. *)
Definition process_data (self : DataProcessor) (file_path : string)
    (progress_callback : bool) : list progress_call * result DataFrame :=
  let log := notify progress_callback [] (Initializing, None) in
  match initialize_rag_system self with
  | Raise e => (log, Raise e)
  | Ok self =>
      let log := notify progress_callback log (Loading, None) in
      match (let* raw_data_df := load_data file_path in
             split_data_into_chunks self raw_data_df) with
      | Raise e => (log, Raise e)
      | Ok chunks =>
          let '(results, log) :=
            process_chunks self progress_callback (length chunks) 0 chunks
              [] log in
          let log := notify progress_callback log (Finalizing, None) in
          (log, _parse_results results)
      end
  end.

(** The answers of the chunks whose processing did not raise, in order. *)
Definition answers (self : DataProcessor) (chunks : list (list (list cell)))
  : list AIMessage :=
  omap (fun chunk => match _process_chunk self chunk with
                     | Ok result => Some result
                     | Raise _ => None
                     end) chunks.

(** What one chunk adds to the output: the rows kept from its answer,
    nothing when its processing raises. *)
Definition chunk_rows (self : DataProcessor) (chunk : list (list cell))
  : list (list string) :=
  match _process_chunk self chunk with
  | Ok result => kept_rows (content result)
  | Raise _ => []
  end.

End WithCollaborators.

End Processor.

(** ** The index builder ([vectordb_setup.py]) *)

Module VectorDB.

(** *** [float(text)] *)

Definition is_digit (c : ascii) : bool :=
  let n := nat_of_ascii c in ((48 <=? n) && (n <=? 57))%nat.

Definition digit_value (c : ascii) : Z := Z.of_nat (nat_of_ascii c) - 48.

(** Underscores may only stand between two digits; they are taken out
    before the number is read.  [prev] is the character before [s], the
    null character at the start. *)
Fixpoint remove_underscores (prev : ascii) (s : string) : option string :=
  match s with
  | EmptyString => if Ascii.eqb prev "_"%char then None else Some EmptyString
  | String c s' =>
      if Ascii.eqb c "_"%char
      then if is_digit prev then remove_underscores c s' else None
      else if Ascii.eqb prev "_"%char && negb (is_digit c) then None
      else option_map (String c) (remove_underscores c s')
  end.

(** The longest prefix of digits, as a number with its count of digits, and
    what follows it. *)
Fixpoint span_digits (acc : Z) (n : nat) (s : string) : Z * nat * string :=
  match s with
  | String c s' =>
      if is_digit c then span_digits (10 * acc + digit_value c) (S n) s'
      else (acc, n, s)
  | EmptyString => (acc, n, s)
  end.

Definition take_sign (s : string) : bool * string :=
  match s with
  | String c s' =>
      if Ascii.eqb c "-"%char then (true, s')
      else if Ascii.eqb c "+"%char then (false, s')
      else (false, s)
  | EmptyString => (false, s)
  end.

(** The exponent part: nothing, or [e] or [E], a sign and digits up to the
    end of the text. *)
Definition parse_exponent (s : string) : option Z :=
  match s with
  | EmptyString => Some 0
  | String c s' =>
      if Ascii.eqb (PyStr.lower_chr c) "e"%char
      then let '(neg, body) := take_sign s' in
           match span_digits 0 0 body with
           | (_, O, _) => None
           | (v, _, EmptyString) => Some (if neg then - v else v)
           | _ => None
           end
      else None
  end.

(** [float(text)]; [None] stands for the [ValueError] it raises.  White
    space around the text is dropped; [nan], [inf] and [infinity] are read
    in any letter case and with a sign; everything else has to be a
    decimal literal. *)
Definition float_of_text (text : string) : option pyfloat :=
  match remove_underscores Ascii.zero (PyStr.strip text) with
  | None => None
  | Some s =>
      let '(neg, body) := take_sign s in
      let low := PyStr.lower body in
      if String.eqb low "nan" then Some FNaN
      else if String.eqb low "inf" || String.eqb low "infinity"
      then Some (FInf neg)
      else
        let '(ip, ni, after_int) := span_digits 0 0 body in
        let '(m, nf, after_frac) :=
          match after_int with
          | String c s' =>
              if Ascii.eqb c "."%char
              then match span_digits ip 0 s' with (m, nf, r) => (m, nf, r) end
              else (ip, 0%nat, after_int)
          | EmptyString => (ip, 0%nat, after_int)
          end in
        if (ni + nf =? 0)%nat then None
        else match parse_exponent after_frac with
             | Some ex => Some (FNearest (if neg then - m else m)
                                         (ex - Z.of_nat nf))
             | None => None
             end
  end.

(** [float(x)] on a cell value. *)
Definition float_of_cell (x : cell) : result pyfloat :=
  match x with
  | CNaN => Ok FNaN
  | CNum m e => Ok (FNearest m e)
  | CBool b => Ok (FNearest (if b then 1 else 0) 0)
  | CText s =>
      match float_of_text s with
      | Some f => Ok f
      | None => Raise (ValueError "could not convert string to float")
      end
  | CNone | CNaT | CTime _ =>
      Raise (TypeError "float() argument must be a string or a real number")
  end.

(** [pd.isna(x)] on a cell value. *)
Definition pd_isna (x : cell) : bool :=
  match x with
  | CNaN | CNone | CNaT => true
  | _ => false
  end.

(** [row.get(key, default)]. *)
Definition row_get (row : gmap string cell) (key : string) (dflt : cell)
  : cell :=
  default dflt (row !! key).

(** A numeric label as [build_vector_db] takes it from a row: the cell of
    the column, and zero when the column is absent or the cell is a
    missing value. *)
Definition label_cell (row : gmap string cell) (key : string) : cell :=
  let c := row_get row key (CNum 0 0) in
  if pd_isna c then CNum 0 0 else c.

(** The persisted index: per directory, the embedded records it holds. *)
Abbreviation filesystem := (gmap string (list (vector * Document))).

Definition no_valid_documents : exception :=
  ValueError "No valid documents created. Check your Excel file structure.".

Section WithCollaborators.
Context `{Collaborators}.

(** The body of the [try] block: the document of one reference row. *)
Definition make_document (idx : nat) (row : gmap string cell)
  : result Document :=
  let text key := str_cell (row_get row key (CText EmptyString)) in
  let content :=
    "Raw Antibiotic: " +:+ text "raw_antibiotic_name" +:+ " | "
    +:+ "Raw Dose: " +:+ text "raw_dose_quantity" +:+ " | "
    +:+ "Patient Instructions: " +:+ text "patient_instructions" +:+ " | "
    +:+ "Clean Antibiotic: " +:+ text "clean_antibiotic_name" +:+ " | "
    +:+ "Clean Dose: " +:+ text "clean_dose" +:+ " | "
    +:+ "Unit: " +:+ text "clean_unit_of_measure" +:+ " | "
    +:+ "Frequency: " +:+ text "clean_frequency" +:+ " | "
    +:+ "Duration: " +:+ text "clean_duration" in
  let clean_dose := row_get row "clean_dose" (CNum 0 0) in
  let clean_frequency := row_get row "clean_frequency" (CNum 0 0) in
  let clean_duration := row_get row "clean_duration" (CNum 0 0) in
  let clean_dose := if pd_isna clean_dose then CNum 0 0 else clean_dose in
  let clean_frequency :=
    if pd_isna clean_frequency then CNum 0 0 else clean_frequency in
  let clean_duration :=
    if pd_isna clean_duration then CNum 0 0 else clean_duration in
  let* dose := float_of_cell clean_dose in
  let* frequency := float_of_cell clean_frequency in
  let* duration := float_of_cell clean_duration in
  Ok {| page_content := content;
        metadata :=
          list_to_map
            [("row_id", MInt (Z.of_nat idx));
             ("raw_antibiotic_name", MStr (text "raw_antibiotic_name"));
             ("raw_dose_quantity", MStr (text "raw_dose_quantity"));
             ("patient_instructions", MStr (text "patient_instructions"));
             ("clean_antibiotic_name", MStr (text "clean_antibiotic_name"));
             ("clean_dose", MFloat dose);
             ("clean_unit_of_measure", MStr (text "clean_unit_of_measure"));
             ("clean_frequency", MFloat frequency);
             ("clean_duration", MFloat duration)] |}.

(** [ref_df.iterrows()]: each row with its index label. *)
Definition iterrows (ref_df : list (gmap string cell))
  : list (nat * gmap string cell) :=
  zip (seq 0 (length ref_df)) ref_df.

(** The loop over the rows: a row that raises is skipped. *)
Fixpoint build_documents (todo : list (nat * gmap string cell))
    (documents : list Document) (valid_rows : nat)
  : list Document * nat :=
  match todo with
  | [] => (documents, valid_rows)
  | (idx, row) :: rest =>
      match make_document idx row with
      | Ok doc => build_documents rest (documents ++ [doc]) (valid_rows + 1)
      | Raise _ => build_documents rest documents valid_rows
      end
  end.

(** [os.path.exists(path)]. *)
Definition os_path_exists (fs : filesystem) (path : string) : bool :=
  bool_decide (is_Some (fs !! path)).

(** [shutil.rmtree(path)].  The file system is flat: a path names one
    index directory, no directory lies inside another and none has two
    spellings. *)
Definition rmtree (path : string) (fs : filesystem) : filesystem :=
  delete path fs.

(** The embedding pass over the texts. *)
Fixpoint embed_all (emb : embeddings) (texts : list string)
  : result (list vector) :=
  match texts with
  | [] => Ok []
  | t :: rest =>
      let* v := call (embed emb t) in
      let* vs := embed_all emb rest in
      Ok (v :: vs)
  end.

(** [Chroma.from_documents(documents, embedding, persist_directory)]: the
    store opens the collection kept in the directory, creating it when
    there is none, embeds the texts and adds the records to what the
    collection holds.  The records are kept here as they are handed
    over: what the store does with a metadata value it cannot hold, a NaN
    or an infinity, is not modelled. *)
Definition Chroma_from_documents (documents : list Document)
    (emb : embeddings) (persist_directory : string) (fs : filesystem)
  : filesystem * result (list (vector * Document)) :=
  let held := default [] (fs !! persist_directory) in
  match embed_all emb (map page_content documents) with
  | Raise e => (<[persist_directory := held]> fs, Raise e)
  | Ok vectors =>
      let index := held ++ zip vectors documents in
      (<[persist_directory := index]> fs, Ok index)
  end.

(** [build_vector_db]: the file system it leaves and the index it returns
    or the exception it raises. *)
Definition build_vector_db (reference_excel_path persist_directory : string)
    (fs : filesystem)
  : filesystem * result (list (vector * Document)) :=
  match call (read_excel_rows reference_excel_path) with
  | Raise e => (fs, Raise e)
  | Ok ref_df =>
      let '(documents, valid_rows) :=
        build_documents (iterrows ref_df) [] 0 in
      match documents with
      | [] => (fs, Raise no_valid_documents)
      | _ =>
          match call (OllamaEmbeddings "nomic-embed-text") with
          | Raise e => (fs, Raise e)
          | Ok emb =>
              let fs :=
                if os_path_exists fs persist_directory
                then rmtree persist_directory fs else fs in
              Chroma_from_documents documents emb persist_directory fs
          end
      end
  end.

(** The documents of the rows whose construction does not raise, in
    row order. *)
Definition valid_documents (ref_df : list (gmap string cell))
  : list Document :=
  omap (fun '(idx, row) => match make_document idx row with
                           | Ok doc => Some doc
                           | Raise _ => None
                           end) (iterrows ref_df).

End WithCollaborators.

End VectorDB.

(** ** A world to run the programs in *)

Module Fake.

Definition str_Z (z : Z) : string :=
  DecimalString.NilZero.string_of_int (Z.to_int z).

Definition str_float (f : pyfloat) : string :=
  match f with
  | FNaN => "nan"
  | FInf negative => if negative then "-inf" else "inf"
  | FNearest m e => str_Z m +:+ "e" +:+ str_Z e
  end.

Definition show_cell (c : cell) : string :=
  match c with
  | CNaN => "nan"
  | CNone => "None"
  | CNaT => "NaT"
  | CNum m e => str_float (FNearest m e)
  | CBool b => if b then "True" else "False"
  | CText s => s
  | CTime stamp => stamp
  end.

Definition show_value (v : mvalue) : outcome string :=
  Done match v with
       | MInt z => str_Z z
       | MStr s => s
       | MFloat f => str_float f
       end.

(** The world in which every service is up: workbooks are given by
    [sheet_values] and [sheet_rows], the store answers a search by [search]
    and the chat model a request by [answer]; a text is embedded as its
    length. *)
Definition world
    (sheet_values : string -> outcome (list (list cell)))
    (sheet_rows : string -> outcome (list (gmap string cell)))
    (search : string -> outcome (list Document))
    (answer : ChainInput -> outcome AIMessage) : Collaborators :=
  {| embeddings := unit;
     vector := nat;
     vectorstore := unit;
     chat_model := string;
     read_excel_values := sheet_values;
     read_excel_rows := sheet_rows;
     str_cell := show_cell;
     format_value := show_value;
     OllamaEmbeddings := fun _ => Done tt;
     embed := fun _ text => Done (String.length text);
     Chroma := fun _ _ => Done tt;
     ChatOllama := fun name => Done name;
     similarity_search := fun _ query _ => search query;
     chain_invoke := fun _ _ input => answer input |}.

Definition no_sheet {A} (path : string) : outcome A :=
  Failed "No such file or directory".

(** The workbooks of the runs below. *)
Definition three_rows : list (list cell) :=
  [[CText "a"]; [CText "b"]; [CText "c"]].

Definition one_row : list (list cell) :=
  [[CText "amoxicillin 500mg twice daily for 7 days"]].

Definition sheets (path : string) : outcome (list (list cell)) :=
  if String.eqb path "three.xlsx" then Done three_rows
  else if String.eqb path "one.xlsx" then Done one_row
  else if String.eqb path "empty.xlsx" then Done []
  else no_sheet path.

(** A chat model that fails on the chunk whose text is [b]. *)
Definition answer_unless_b (input : ChainInput) : outcome AIMessage :=
  if String.eqb (data input) "b" then Failed "model call failed"
  else Done {| content := data input +:+ ",500,7" |}.

(** A chat model that answers every chunk with two lines. *)
Definition answer_two_lines (input : ChainInput) : outcome AIMessage :=
  Done {| content := "2,500,7
1,250,5" |}.

Definition flaky_model : Collaborators :=
  world sheets no_sheet (fun _ => Done []) answer_unless_b.

Definition talkative_model : Collaborators :=
  world sheets no_sheet (fun _ => Done []) answer_two_lines.

Definition unreachable_index : Collaborators :=
  world sheets no_sheet (fun _ => Failed "index unreachable") answer_two_lines.

(** A processor with chunks of one row. *)
Definition row_by_row : Processor.ProcessingConfig :=
  {| Processor.model_num := 0; Processor.chunk_size := 1;
     Processor.vector_db_path := "./chroma_db";
     Processor.similarity_search_k := 3 |}.

(** Reference workbooks: a row is amoxicillin with the given dose label. *)
Definition reference_row (dose : cell) : gmap string cell :=
  list_to_map
    [("raw_antibiotic_name", CText "AMOXICILLIN 500MG CAPS");
     ("raw_dose_quantity", CText "500mg");
     ("patient_instructions", CText "take one capsule twice daily for 7 days");
     ("clean_antibiotic_name", CText "amoxicillin");
     ("clean_dose", dose);
     ("clean_unit_of_measure", CText "mg");
     ("clean_frequency", CNum 2 0);
     ("clean_duration", CNum 7 0)].

(** Ten rows, the third with a dose that is no number. *)
Definition ten_rows : list (gmap string cell) :=
  [reference_row (CNum 500 0); reference_row (CNum 250 0);
   reference_row (CText "abc"); reference_row (CNum 125 0);
   reference_row CNaN; reference_row (CText "1_000");
   reference_row (CNum 5 2); reference_row (CText " 250.0 ");
   reference_row (CNum 875 0); reference_row (CNum 1 3)].

(** Ten rows that all fail. *)
Definition ten_bad_rows : list (gmap string cell) :=
  replicate 10 (reference_row (CText "five hundred")).

(** One row whose dose cell holds the text NAN. *)
Definition nan_row : gmap string cell := reference_row (CText "NAN").

Definition references (path : string) : outcome (list (gmap string cell)) :=
  if String.eqb path "ten.xlsx" then Done ten_rows
  else if String.eqb path "bad.xlsx" then Done ten_bad_rows
  else if String.eqb path "nan.xlsx" then Done [nan_row]
  else no_sheet path.

Definition reference_builder : Collaborators :=
  world no_sheet references (fun _ => Done []) answer_two_lines.

(** A file system that holds an index of one record already. *)
Definition old_record : Document :=
  {| page_content := "Raw Antibiotic: PENICILLIN";
     metadata := {[ "row_id" := MInt 0 ]} |}.

Definition old_files : gmap string (list (nat * Document)) :=
  {[ "./chroma_db" := [(26%nat, old_record)] ]}.

(** A store that answers every search with the old record twice, and the
    example the retriever makes of that record. *)
Definition two_hits : Collaborators :=
  world sheets no_sheet (fun _ => Done [old_record; old_record])
    answer_two_lines.

Definition old_example : string :=
  "Example Input: Raw Antibiotic: '' | Raw Dose: '' | Instructions: ''"
  +:+ String PyStr.newline EmptyString
  +:+ "Extracted Output: Daily Frequency: 0, Dose: 0mg, Duration: 0 days"
  +:+ String PyStr.newline EmptyString.


End Fake.

(** ** The application ([pharm_app.py]) *)

Module App.

(** [model_map] of [process_data_thread]. *)
Definition model_map : gmap string Z :=
  list_to_map [("qwen3:14b", 0); ("qwen3:32b", 1);
               ("llama3.2:latest", 2); ("gpt-oss:20b", 3)].

(** The configuration [process_data_thread] builds from the text of the
    model box: [model_map.get(selected, 0)], chunks of ten rows, the
    default retrieval count. *)
Definition thread_config (selected : string) : Processor.ProcessingConfig :=
  {| Processor.model_num := default 0 (model_map !! selected);
     Processor.chunk_size := 10;
     Processor.vector_db_path := "./chroma_db";
     Processor.similarity_search_k := 3 |}.

(** [chunks_processed] of [process_data_thread]:
    [math.ceil(rows_processed / config.chunk_size)]. *)
Definition chunks_processed (rows_processed : nat)
    (cfg : Processor.ProcessingConfig) : result Z :=
  Batcher.math_ceil_div (Z.of_nat rows_processed) (Processor.chunk_size cfg).

End App.

(** * Properties *)

(** ** Batcher *)

Section BatcherFacts.
Import Batcher.
Context {A : Type}.
Implicit Types (l df : list A) (sizes : list nat).

(** The slices between consecutive division points are the pieces that
    [reshape] cuts off one after the other. *)
Lemma slices_reshape sizes : forall acc l,
  map (fun i => slice (nth i (acc :: cumsum_from acc sizes) 0%nat)
                      (nth (S i) (acc :: cumsum_from acc sizes) 0%nat) l)
      (seq 0 (length sizes))
  = reshape sizes (drop acc l).
Proof.
  induction sizes as [|s sizes IH]; intros acc l; [reflexivity|].
  cbn [length seq map reshape cumsum_from]. f_equal.
  - unfold slice. cbn [nth]. now rewrite take_drop_commute.
  - rewrite <- seq_shift, map_map, drop_drop.
    rewrite <- (IH (acc + s)%nat l). apply map_ext. intros i. reflexivity.
Qed.

Lemma concat_reshape sizes : forall l,
  concat (reshape sizes l) = take (sum_list sizes) l.
Proof.
  induction sizes as [|s sizes IH]; intros l; cbn.
  - now rewrite take_0.
  - now rewrite IH, take_take_drop.
Qed.

Lemma lengths_reshape sizes : forall l,
  (sum_list sizes <= length l)%nat ->
  map length (reshape sizes l) = sizes.
Proof.
  induction sizes as [|s sizes IH]; intros l Hle; cbn in *; [reflexivity|].
  rewrite length_take_le by lia. f_equal.
  apply IH. rewrite length_drop. lia.
Qed.

Lemma section_sizes_sum (N k : nat) :
  (0 < k)%nat -> sum_list (tail (section_sizes N k)) = N.
Proof.
  intros Hk. unfold section_sizes. cbn [app tail].
  rewrite sum_list_with_app, !sum_list_replicate.
  pose proof (Nat.div_mod_eq N k) as Hdm.
  pose proof (Nat.mod_upper_bound N k ltac:(lia)) as Hr.
  nia.
Qed.

Lemma array_split_reshape l (n : Z) :
  0 < n ->
  array_split l n
  = Ok (reshape (tail (section_sizes (length l) (Z.to_nat n))) l).
Proof.
  intros Hn. unfold array_split.
  destruct (Z.leb_spec n 0) as [?|_]; [lia|]. f_equal.
  set (k := Z.to_nat n).
  assert (Hk : (0 < k)%nat) by (subst k; lia).
  pose proof (Nat.mod_upper_bound (length l) k ltac:(lia)) as Hr.
  unfold section_sizes, cumsum. cbn [app tail cumsum_from].
  set (sizes := replicate _ _ ++ replicate _ _).
  assert (Hlen : length sizes = k).
  { subst sizes. rewrite length_app, !length_replicate. lia. }
  rewrite <- Hlen at 1. change (0 + 0)%nat with 0%nat.
  rewrite (slices_reshape sizes 0 l). now rewrite drop_0.
Qed.

Lemma math_ceil_div_spec (n c : Z) :
  0 < c ->
  exists k, math_ceil_div n c = Ok k /\ (k - 1) * c < n <= k * c.
Proof.
  intros Hc. unfold math_ceil_div.
  destruct (Z.eqb_spec c 0) as [?|_]; [lia|].
  eexists; split; [reflexivity|].
  pose proof (Z.div_mod (- n) c ltac:(lia)) as Hdm.
  pose proof (Z.mod_pos_bound (- n) c Hc) as Hr.
  nia.
Qed.

(** What the batcher returns on a dataset that is not empty: the section
    count [k] is the ceiling of [N / C] and the rows are cut into
    [N mod k] pieces of [N / k + 1] rows followed by pieces of [N / k]
    rows. *)
Lemma split_data_into_chunks_reshape df (C : Z) :
  df <> [] -> 0 < C ->
  exists k : nat,
    (0 < k)%nat /\
    (Z.of_nat k - 1) * C < Z.of_nat (length df) <= Z.of_nat k * C /\
    split_data_into_chunks C df
    = Ok (reshape (replicate (length df mod k) (length df / k + 1)%nat ++
                   replicate (k - length df mod k) (length df / k)%nat) df).
Proof.
  intros Hne HC. unfold split_data_into_chunks.
  destruct (math_ceil_div_spec (Z.of_nat (length df)) C HC) as (k & -> & Hk).
  assert (0 < length df)%nat by (destruct df; [congruence|cbn; lia]).
  assert (0 < k) by nia.
  exists (Z.to_nat k). split; [lia|]. split; [rewrite Z2Nat.id by lia; exact Hk|].
  cbn [bind]. now rewrite array_split_reshape.
Qed.
End BatcherFacts.

(** C1, as amended.  On a dataset of [N > 0] rows and with [C > 0] the batcher
    returns [k] batches, [k] the ceiling of [N / C]; the first [N mod k] of
    them have [N / k + 1] rows and the others [N / k] rows, so that no batch
    has more than [C] rows. *)
Theorem split_data_into_chunks_balanced {A} (df : list A) (C : Z) :
  df <> [] -> 0 < C ->
  exists (chunks : list (list A)) (k : nat),
    Batcher.split_data_into_chunks C df = Ok chunks /\
    length chunks = k /\
    (Z.of_nat k - 1) * C < Z.of_nat (length df) <= Z.of_nat k * C /\
    map length chunks
    = replicate (length df mod k) (length df / k + 1)%nat ++
      replicate (k - length df mod k) (length df / k)%nat /\
    Forall (fun chunk => Z.of_nat (length chunk) <= C) chunks.
Proof.
  intros Hne HC.
  destruct (split_data_into_chunks_reshape df C Hne HC) as (k & Hk & Hceil & Heq).
  set (N := length df) in *.
  set (sizes := replicate (N mod k) (N / k + 1)%nat ++
                replicate (k - N mod k) (N / k)%nat) in *.
  pose proof (Nat.mod_upper_bound N k ltac:(lia)) as Hr.
  pose proof (Nat.div_mod_eq N k) as Hdm.
  assert (Hsum : sum_list sizes = N).
  { pose proof (section_sizes_sum N k Hk) as Hs. exact Hs. }
  assert (Hlens : map length (reshape sizes df) = sizes).
  { apply lengths_reshape. fold N. lia. }
  exists (reshape sizes df), k. repeat split; try tauto.
  - rewrite <- (length_map length), Hlens. subst sizes.
    rewrite length_app, !length_replicate. lia.
  - apply Forall_forall. intros chunk Hin.
    assert (Hs : In (length chunk) sizes).
    { rewrite <- Hlens. apply in_map. now apply list_elem_of_In. }
    subst sizes. apply in_app_or in Hs.
    clear Hsum Hlens Heq Hin. revert Hs Hdm Hr.
    generalize (N / k)%nat (N mod k)%nat. intros q r Hs Hdm Hr.
    destruct Hs as [Hs|Hs]; apply list_elem_of_In, elem_of_replicate in Hs;
      destruct Hs as [-> Hpos]; nia.
Qed.

(** The theorem on 25 rows and a chunk size of 10. *)
Lemma split_data_into_chunks_balanced_witness :
  exists (chunks : list (list nat)) (k : nat),
    Batcher.split_data_into_chunks 10 (seq 0 25) = Ok chunks /\
    length chunks = k /\
    (Z.of_nat k - 1) * 10 < Z.of_nat (length (seq 0 25)) <= Z.of_nat k * 10 /\
    map length chunks
    = replicate (length (seq 0 25) mod k) (length (seq 0 25) / k + 1)%nat ++
      replicate (k - length (seq 0 25) mod k) (length (seq 0 25) / k)%nat /\
    Forall (fun chunk => Z.of_nat (length chunk) <= 10) chunks.
Proof.
  apply (split_data_into_chunks_balanced (seq 0 25) 10); [discriminate | lia].
Defined.

(** C1, as stated, fails: 25 rows with a chunk size of 10 come back as
    batches of 9, 8 and 8 rows, not of 10, 10 and 5. *)
Lemma split_25_rows_by_10 :
  Batcher.split_data_into_chunks 10 (seq 0 25)
  = Ok [seq 0 9; seq 9 8; seq 17 8] /\
  ~ (exists chunks, Batcher.split_data_into_chunks 10 (seq 0 25) = Ok chunks /\
                    map length chunks = [10; 10; 5]%nat).
Proof.
  split; [reflexivity|].
  intros (chunks & Heq & Hlen). vm_compute in Heq.
  injection Heq as <-. discriminate Hlen.
Qed.

(** C4.  On a dataset that is not empty and with [C > 0], the batches put
    back together in order are the dataset. *)
Theorem split_data_into_chunks_concat {A} (df : list A) (C : Z) :
  df <> [] -> 0 < C ->
  exists chunks,
    Batcher.split_data_into_chunks C df = Ok chunks /\ concat chunks = df.
Proof.
  intros Hne HC.
  destruct (split_data_into_chunks_reshape df C Hne HC) as (k & Hk & _ & Heq).
  eexists; split; [exact Heq|].
  rewrite concat_reshape.
  pose proof (section_sizes_sum (length df) k Hk) as Hs.
  unfold Batcher.section_sizes in Hs. cbn [app tail] in Hs.
  rewrite Hs. now apply take_ge.
Qed.

Lemma split_data_into_chunks_concat_witness :
  exists chunks,
    Batcher.split_data_into_chunks 10 (seq 0 25) = Ok chunks /\
    concat chunks = seq 0 25.
Proof.
  apply (split_data_into_chunks_concat (seq 0 25) 10); [discriminate | lia].
Defined.

(** ** Result parser *)

Section ParserFacts.
Import Processor.

Lemma split_length (sep : ascii) (s : string) :
  length (PyStr.split sep s) = S (PyStr.count sep s).
Proof.
  induction s as [|c s IH]; [reflexivity|].
  cbn [PyStr.split PyStr.count].
  destruct (Ascii.eqb c sep); cbn [length]; [now rewrite IH|].
  destruct (PyStr.split sep s); cbn in *; [discriminate|lia].
Qed.

(** Trimming the fields does not change how many there are: a line has
    three fields exactly when it has two commas. *)
Lemma three_fields_two_commas (line : string) :
  length (fields line) = 3%nat <-> PyStr.count PyStr.comma line = 2%nat.
Proof.
  unfold fields. rewrite length_map, split_length. lia.
Qed.

Lemma fold_parse_line (lines : list string) : forall parsed_rows,
  fold_left parse_line lines parsed_rows
  = parsed_rows
    ++ map fields (filter (fun line => length (fields line) = 3%nat) lines).
Proof.
  induction lines as [|line lines IH]; intros parsed_rows; cbn [fold_left].
  - now rewrite app_nil_r.
  - rewrite IH, filter_cons. unfold parse_line. fold (fields line).
    destruct (Nat.eqb_spec (length (fields line)) 3) as [Heq|Hne];
      case_decide; try contradiction; [|reflexivity].
    cbn [map]. now rewrite <- app_assoc.
Qed.

Lemma fold_parse_result (results : list AIMessage) : forall parsed_rows,
  fold_left parse_result results parsed_rows
  = parsed_rows ++ flat_map (fun r => kept_rows (content r)) results.
Proof.
  induction results as [|r results IH]; intros parsed_rows; cbn [fold_left flat_map].
  - now rewrite app_nil_r.
  - rewrite IH. unfold parse_result. rewrite fold_parse_line.
    now rewrite <- app_assoc.
Qed.

Lemma kept_rows_width (response : string) :
  Forall (fun row => length row = 3%nat) (kept_rows response).
Proof.
  unfold kept_rows. apply Forall_forall. intros row Hin.
  apply list_elem_of_In, in_map_iff in Hin. destruct Hin as (line & <- & Hin).
  apply list_elem_of_In, list_elem_of_filter in Hin. tauto.
Qed.

Lemma flat_kept_rows_width (results : list AIMessage) :
  Forall (fun row => length row = 3%nat)
         (flat_map (fun r => kept_rows (content r)) results).
Proof.
  induction results as [|r results IH]; cbn [flat_map]; [constructor|].
  apply Forall_app. split; [apply kept_rows_width | exact IH].
Qed.

Lemma max_list_all (n : nat) (l : list nat) :
  l <> [] -> Forall (fun x => x = n) l -> max_list l = n.
Proof.
  induction l as [|x l IH]; intros Hne Hall; [congruence|].
  apply Forall_cons in Hall as [-> Hall].
  change (max_list (n :: l)) with (Nat.max n (max_list l)).
  destruct l as [|y l]; [cbn; lia|].
  rewrite IH; [lia | discriminate | exact Hall].
Qed.

(** The table constructor accepts rows of three fields each. *)
Lemma pd_DataFrame_three (parsed_rows : list (list string)) :
  Forall (fun row => length row = 3%nat) parsed_rows ->
  pd_DataFrame parsed_rows output_columns = Ok (table_of parsed_rows).
Proof.
  intros Hall. unfold pd_DataFrame, table_of.
  destruct parsed_rows as [|row parsed_rows]; [reflexivity|].
  rewrite (max_list_all 3).
  - cbn [output_columns length Nat.eqb]. do 2 f_equal.
    apply map_ext_in. intros r Hin.
    rewrite Forall_forall in Hall. unfold pad_row.
    rewrite (Hall r) by now apply list_elem_of_In.
    cbn. apply app_nil_r.
  - discriminate.
  - apply Forall_forall. intros n Hin.
    apply list_elem_of_In, in_map_iff in Hin. destruct Hin as (r & <- & Hin).
    rewrite Forall_forall in Hall. apply Hall. now apply list_elem_of_In.
Qed.

Lemma parse_results_table (results : list AIMessage) :
  _parse_results results
  = Ok (table_of (flat_map (fun r => kept_rows (content r)) results)).
Proof.
  unfold _parse_results. rewrite fold_parse_result. cbn [app].
  apply pd_DataFrame_three, flat_kept_rows_width.
Qed.
End ParserFacts.

(** C2.  The parser never raises; the table it returns holds, in order, the
    trimmed fields of exactly those lines of the trimmed responses that split
    on commas into three fields, kept as text; the empty response gives the
    table without rows. *)
Theorem parse_results_keeps_three_field_lines (results : list AIMessage) :
  Processor._parse_results results
  = Ok {| columns := ["Daily Frequency"; "Dose"; "Duration"];
          rows :=
            map (map Some)
              (flat_map
                 (fun r =>
                    map Processor.fields
                      (filter (fun line => length (Processor.fields line) = 3%nat)
                              (Processor.lines_of (content r))))
                 results) |}
  /\ Processor._parse_results [{| content := EmptyString |}]
     = Ok {| columns := ["Daily Frequency"; "Dose"; "Duration"]; rows := [] |}.
Proof.
  split; [apply parse_results_table | reflexivity].
Qed.

(** ** Processor *)

Section ProcessorFacts.
Import Processor.
Context `{Collaborators}.
Implicit Types (self : DataProcessor) (chunks : list (list (list cell))).

Lemma initialize_keeps_config self self' :
  initialize_rag_system self = Ok self' -> config self' = config self.
Proof.
  unfold initialize_rag_system. intros Hinit.
  destruct (call (OllamaEmbeddings _)); cbn [bind] in Hinit; [|discriminate].
  destruct (call (Chroma _ _)); cbn [bind] in Hinit; [|discriminate].
  destruct (choose_model _); cbn [bind] in Hinit; [|discriminate].
  now injection Hinit as <-.
Qed.

(** The loop keeps the answers of the chunks that did not raise. *)
Lemma process_chunks_answers self cb total chunks : forall i results log,
  fst (process_chunks self cb total i chunks results log)
  = results ++ answers self chunks.
Proof.
  induction chunks as [|chunk chunks IH]; intros i results log;
    cbn [process_chunks answers omap list_omap].
  - now rewrite app_nil_r.
  - fold (answers self chunks).
    destruct (_process_chunk self chunk) as [result|e]; rewrite IH.
    + now rewrite <- app_assoc.
    + reflexivity.
Qed.

Lemma answers_chunk_rows self chunks :
  flat_map (fun r => kept_rows (content r)) (answers self chunks)
  = flat_map (chunk_rows self) chunks.
Proof.
  induction chunks as [|chunk chunks IH];
    cbn [answers omap list_omap flat_map]; [reflexivity|].
  fold (answers self chunks). unfold chunk_rows at 1.
  destruct (_process_chunk self chunk) as [result|e]; cbn [flat_map app];
    now rewrite IH.
Qed.

(** A run that gets past the split returns the table of the rows of its
    chunks. *)
Lemma process_data_past_split self self' path cb df chunks :
  initialize_rag_system self = Ok self' ->
  load_data path = Ok df ->
  split_data_into_chunks self' df = Ok chunks ->
  snd (process_data self path cb)
  = Ok (table_of (flat_map (chunk_rows self') chunks)).
Proof.
  intros Hinit Hload Hsplit. unfold process_data.
  rewrite Hinit, Hload. cbn [bind]. rewrite Hsplit.
  pose proof (process_chunks_answers self' cb (length chunks) chunks 0 []
                (notify cb (notify cb [] (Initializing, None)) (Loading, None)))
    as Hloop.
  destruct (process_chunks _ _ _ _ _ _ _) as [results log].
  cbn [fst app] in Hloop. subst results. cbn [snd].
  now rewrite parse_results_table, answers_chunk_rows.
Qed.

(** A run that returns a table got past the split. *)
Lemma process_data_returns self path cb log table :
  process_data self path cb = (log, Ok table) ->
  exists self' df chunks,
    initialize_rag_system self = Ok self' /\
    load_data path = Ok df /\
    split_data_into_chunks self' df = Ok chunks /\
    table = table_of (flat_map (chunk_rows self') chunks).
Proof.
  intros Hrun.
  destruct (initialize_rag_system self) as [self'|e] eqn:Hinit.
  2: { unfold process_data in Hrun. rewrite Hinit in Hrun. congruence. }
  destruct (load_data path) as [df|e] eqn:Hload.
  2: { unfold process_data in Hrun. rewrite Hinit, Hload in Hrun.
       cbn [bind] in Hrun. congruence. }
  destruct (split_data_into_chunks self' df) as [chunks|e] eqn:Hsplit.
  2: { unfold process_data in Hrun. rewrite Hinit, Hload in Hrun.
       cbn [bind] in Hrun. rewrite Hsplit in Hrun. congruence. }
  exists self', df, chunks.
  split; [reflexivity|]. split; [reflexivity|]. split; [exact Hsplit|].
  pose proof (process_data_past_split self self' path cb df chunks
                Hinit Hload Hsplit) as Hsnd.
  rewrite Hrun in Hsnd. cbn [snd] in Hsnd. congruence.
Qed.

Lemma kept_rows_count (response : string) :
  (length (kept_rows response) <= length (lines_of response))%nat.
Proof.
  unfold kept_rows. rewrite length_map. apply length_filter.
Qed.

Lemma flat_kept_rows_count (results : list AIMessage) :
  (length (flat_map (fun r => kept_rows (content r)) results)
   <= length (flat_map (fun r => lines_of (content r)) results))%nat.
Proof.
  induction results as [|r results IH]; cbn [flat_map]; [reflexivity|].
  rewrite !length_app. pose proof (kept_rows_count (content r)). lia.
Qed.

(** The documents in front of a failing one do not matter: the loop over
    the retrieved documents raises as soon as one of them does. *)
Lemma format_examples_raises (docs : list Document) : forall examples doc,
  doc ∈ docs -> raises (format_example doc) = true ->
  raises (format_examples docs examples) = true.
Proof.
  induction docs as [|d docs IH]; intros examples doc Hin Hraise.
  - now apply elem_of_nil in Hin.
  - cbn [format_examples].
    destruct (format_example d) as [example|e] eqn:Hd; cbn [bind]; [|reflexivity].
    apply elem_of_cons in Hin as [->|Hin].
    + rewrite Hd in Hraise. discriminate.
    + now apply (IH _ doc).
Qed.
End ProcessorFacts.

(** C3.  Once initialization, load and split have succeeded, the run returns
    a table whatever the chunks do: its rows are, chunk after chunk, the rows
    kept from the answer of the chunk, and nothing for a chunk whose
    processing raises. *)
Theorem process_data_contains_chunk_failures `{Collaborators}
    (self self' : Processor.DataProcessor) (path : string) (cb : bool)
    (df : list (list cell)) (chunks : list (list (list cell))) :
  Processor.initialize_rag_system self = Ok self' ->
  Processor.load_data path = Ok df ->
  Processor.split_data_into_chunks self' df = Ok chunks ->
  snd (Processor.process_data self path cb)
  = Ok {| columns := ["Daily Frequency"; "Dose"; "Duration"];
          rows :=
            map (map Some)
              (flat_map
                 (fun chunk =>
                    match Processor._process_chunk self' chunk with
                    | Ok result => Processor.kept_rows (content result)
                    | Raise _ => []
                    end)
                 chunks) |}.
Proof.
  intros Hinit Hload Hsplit.
  exact (process_data_past_split self self' path cb df chunks Hinit Hload Hsplit).
Qed.

(** Three chunks of one row, the second of which makes the model fail: the
    table holds the rows of the first and of the third. *)
Lemma process_data_contains_chunk_failures_witness :
  snd (Processor.process_data (H := Fake.flaky_model)
         (Processor.new Fake.row_by_row) "three.xlsx" true)
  = Ok {| columns := ["Daily Frequency"; "Dose"; "Duration"];
          rows := [[Some "a"; Some "500"; Some "7"];
                   [Some "c"; Some "500"; Some "7"]] |}.
Proof.
  apply (process_data_contains_chunk_failures (H := Fake.flaky_model)
           (Processor.new Fake.row_by_row)
           (@Processor.Build_DataProcessor Fake.flaky_model Fake.row_by_row
              (Some tt) (Some "qwen3:14b"))
           "three.xlsx" true Fake.three_rows
           [[[CText "a"]]; [[CText "b"]]; [[CText "c"]]]);
    reflexivity.
Defined.

Section SentinelFacts.
Import Processor.
Context `{Collaborators}.

(** Whatever raises inside the [try] block of the retriever ends in the
    sentinel. *)
Lemma reference_examples_raise_sentinel (self : DataProcessor)
    (query : string) :
  (self_vectorstore self = None
   \/ (exists store what,
         self_vectorstore self = Some store /\
         similarity_search store query (similarity_search_k (config self))
         = Failed what)
   \/ (exists store docs doc,
         self_vectorstore self = Some store /\
         similarity_search store query (similarity_search_k (config self))
         = Done docs /\
         doc ∈ docs /\
         raises (format_example doc) = true)) ->
  _get_reference_examples self query = no_reference.
Proof.
  intros Hfail. unfold _get_reference_examples, reference_examples_try.
  destruct Hfail as [Hnone | [(store & what & Hstore & Hsearch)
                             | (store & docs & doc & Hstore & Hsearch & Hin & Hdoc)]].
  - now rewrite Hnone.
  - now rewrite Hstore; cbn [bind]; rewrite Hsearch.
  - rewrite Hstore; cbn [bind]; rewrite Hsearch. cbn [call bind].
    pose proof (format_examples_raises docs [] doc Hin Hdoc) as Hraise.
    now destruct (format_examples docs []).
Qed.

(** A search that answers with no document raises nothing: the examples
    are none and their join is the empty text. *)
Lemma reference_examples_no_document (self : DataProcessor)
    (store : vectorstore) (query : string) :
  self_vectorstore self = Some store ->
  similarity_search store query (similarity_search_k (config self)) = Done [] ->
  _get_reference_examples self query = EmptyString.
Proof.
  intros Hstore Hsearch. unfold _get_reference_examples, reference_examples_try.
  rewrite Hstore. cbn [bind]. now rewrite Hsearch.
Qed.
End SentinelFacts.

(** C5, as amended.  When the store is missing, the similarity search fails
    or the formatting of one of the retrieved documents raises, the retriever
    returns the sentinel, and the chunk goes to the model with the sentinel as
    its reference.  A search that answers with no document, as on an empty
    index, is no such case: the retriever then returns the empty text. *)
Theorem get_reference_examples_sentinel `{Collaborators}
    (self : Processor.DataProcessor) (query : string) :
  ((Processor.self_vectorstore self = None
    \/ (exists store what,
          Processor.self_vectorstore self = Some store /\
          similarity_search store query
            (Processor.similarity_search_k (Processor.config self))
          = Failed what)
    \/ (exists store docs doc,
          Processor.self_vectorstore self = Some store /\
          similarity_search store query
            (Processor.similarity_search_k (Processor.config self))
          = Done docs /\
          doc ∈ docs /\
          raises (Processor.format_example doc) = true)) ->
   Processor._get_reference_examples self query = "No reference data available"
   /\ forall chunk,
        Processor.chunk_text_of chunk = query ->
        Processor._process_chunk self chunk
        = (let* chain := Processor._create_processing_chain self in
           call (chain_invoke (fst chain) (snd chain)
                   {| data := query;
                      reference := "No reference data available";
                      prompt := Processor._get_extraction_prompt;
                      format := Processor._get_format_instructions |})))
  /\ (forall store,
        Processor.self_vectorstore self = Some store ->
        similarity_search store query
          (Processor.similarity_search_k (Processor.config self))
        = Done [] ->
        Processor._get_reference_examples self query = EmptyString).
Proof.
  split.
  - intros Hfail.
    pose proof (reference_examples_raise_sentinel self query Hfail) as Hsentinel.
    split; [exact Hsentinel|].
    intros chunk <-. unfold Processor._process_chunk. now rewrite Hsentinel.
  - intros store. apply reference_examples_no_document.
Qed.

(** The index cannot be reached: the retriever answers with the sentinel. *)
Lemma get_reference_examples_sentinel_witness :
  similarity_search (Collaborators := Fake.unreachable_index) tt
    "amoxicillin 500mg twice daily" 3
  = Failed "index unreachable"
  /\ Processor._get_reference_examples (H := Fake.unreachable_index)
       (@Processor.Build_DataProcessor Fake.unreachable_index Fake.row_by_row
          (Some tt) (Some "qwen3:14b"))
       "amoxicillin 500mg twice daily"
     = "No reference data available".
Proof.
  split; [reflexivity|].
  destruct (get_reference_examples_sentinel (H := Fake.unreachable_index)
              (@Processor.Build_DataProcessor Fake.unreachable_index
                 Fake.row_by_row (Some tt) (Some "qwen3:14b"))
              "amoxicillin 500mg twice daily") as [Hraise _].
  apply Hraise.
  right; left. exists tt, "index unreachable". split; reflexivity.
Defined.

(** C5, as stated, fails on an empty index: the search answers with no
    document, nothing raises, and the retriever returns the empty text and
    not the sentinel. *)
Lemma empty_index_gives_empty_reference :
  similarity_search (Collaborators := Fake.talkative_model) tt
    "amoxicillin 500mg twice daily" 3
  = Done []
  /\ Processor._get_reference_examples (H := Fake.talkative_model)
       (@Processor.Build_DataProcessor Fake.talkative_model Fake.row_by_row
          (Some tt) (Some "qwen3:14b"))
       "amoxicillin 500mg twice daily"
     = EmptyString
  /\ Processor._get_reference_examples (H := Fake.talkative_model)
       (@Processor.Build_DataProcessor Fake.talkative_model Fake.row_by_row
          (Some tt) (Some "qwen3:14b"))
       "amoxicillin 500mg twice daily"
     <> "No reference data available".
Proof.
  split; [reflexivity|]. split; [reflexivity|]. discriminate.
Qed.

(** C9, as amended.  A run that returns a table returns one with the three
    columns Daily Frequency, Dose, Duration in this order and three fields in
    every row; the rows are at most as many as the lines of the answers of
    the chunks that did not raise. *)
Theorem process_data_table_shape `{Collaborators}
    (self : Processor.DataProcessor) (path : string) (cb : bool)
    (log : list Processor.progress_call) (table : DataFrame) :
  Processor.process_data self path cb = (log, Ok table) ->
  columns table = ["Daily Frequency"; "Dose"; "Duration"]
  /\ Forall (fun row => length row = 3%nat) (rows table)
  /\ exists self' df chunks,
       Processor.initialize_rag_system self = Ok self' /\
       Processor.load_data path = Ok df /\
       Processor.split_data_into_chunks self' df = Ok chunks /\
       (length (rows table)
        <= length (flat_map (fun r => Processor.lines_of (content r))
                            (Processor.answers self' chunks)))%nat.
Proof.
  intros Hrun.
  destruct (process_data_returns self path cb log table Hrun)
    as (self' & df & chunks & Hinit & Hload & Hsplit & ->).
  split; [reflexivity|]. split.
  - cbn [rows Processor.table_of]. apply Forall_forall. intros row Hin.
    apply list_elem_of_In, in_map_iff in Hin. destruct Hin as (r & <- & Hin).
    rewrite length_map. rewrite <- answers_chunk_rows in Hin.
    pose proof (flat_kept_rows_width (Processor.answers self' chunks)) as Hw.
    rewrite Forall_forall in Hw. apply Hw. now apply list_elem_of_In.
  - exists self', df, chunks. repeat (split; [assumption|]).
    cbn [rows Processor.table_of]. rewrite length_map, <- answers_chunk_rows.
    apply flat_kept_rows_count.
Qed.

(** A run that returns a table of two rows. *)
Lemma process_data_table_shape_witness :
  Processor.process_data (H := Fake.talkative_model)
    (Processor.new Fake.row_by_row) "one.xlsx" false
  = ([], Ok (Processor.table_of [["2"; "500"; "7"]; ["1"; "250"; "5"]]))
  /\ columns (Processor.table_of [["2"; "500"; "7"]; ["1"; "250"; "5"]])
     = ["Daily Frequency"; "Dose"; "Duration"]
  /\ Forall (fun row => length row = 3%nat)
       (rows (Processor.table_of [["2"; "500"; "7"]; ["1"; "250"; "5"]])).
Proof.
  split; [reflexivity|].
  destruct (process_data_table_shape (H := Fake.talkative_model)
              (Processor.new Fake.row_by_row) "one.xlsx" false []
              (Processor.table_of [["2"; "500"; "7"]; ["1"; "250"; "5"]])
              eq_refl) as (Hcolumns & Hwidth & _).
  split; assumption.
Defined.

(** C9, as stated, fails: a workbook of one row whose answer has two lines
    of three fields gives a table of two rows. *)
Lemma process_data_more_rows_than_input :
  Processor.load_data (H := Fake.talkative_model) "one.xlsx" = Ok Fake.one_row
  /\ snd (Processor.process_data (H := Fake.talkative_model)
            (Processor.new Fake.row_by_row) "one.xlsx" false)
     = Ok {| columns := ["Daily Frequency"; "Dose"; "Duration"];
             rows := [[Some "2"; Some "500"; Some "7"];
                      [Some "1"; Some "250"; Some "5"]] |}
  /\ (length Fake.one_row < 2)%nat.
Proof.
  split; [reflexivity|]. split; [reflexivity|]. cbn. lia.
Qed.

(** C10.  On a dataset without rows and with a chunk size above zero the
    batcher raises, and so does the run that has loaded such a dataset. *)
Theorem empty_dataset_raises `{Collaborators}
    (self self' : Processor.DataProcessor) (path : string) (cb : bool) :
  0 < Processor.chunk_size (Processor.config self) ->
  Processor.initialize_rag_system self = Ok self' ->
  Processor.load_data path = Ok [] ->
  Batcher.split_data_into_chunks
    (Processor.chunk_size (Processor.config self)) (@nil (list cell))
  = Raise (ValueError "number sections must be larger than 0.")
  /\ snd (Processor.process_data self path cb)
     = Raise (ValueError "number sections must be larger than 0.").
Proof.
  intros HC Hinit Hload.
  assert (Hsplit : Batcher.split_data_into_chunks
                     (Processor.chunk_size (Processor.config self))
                     (@nil (list cell))
                   = Raise (ValueError "number sections must be larger than 0.")).
  { unfold Batcher.split_data_into_chunks, Batcher.math_ceil_div.
    destruct (Z.eqb_spec (Processor.chunk_size (Processor.config self)) 0);
      [lia|].
    cbn [length Z.of_nat Z.opp bind]. now rewrite Z.div_0_l by lia. }
  split; [exact Hsplit|].
  unfold Processor.process_data. rewrite Hinit, Hload. cbn [bind].
  unfold Processor.split_data_into_chunks.
  rewrite (initialize_keeps_config self self' Hinit), Hsplit. reflexivity.
Qed.

Lemma empty_dataset_raises_witness :
  Processor.load_data (H := Fake.talkative_model) "empty.xlsx" = Ok []
  /\ Batcher.split_data_into_chunks 1 (@nil (list cell))
     = Raise (ValueError "number sections must be larger than 0.")
  /\ snd (Processor.process_data (H := Fake.talkative_model)
            (Processor.new Fake.row_by_row) "empty.xlsx" false)
     = Raise (ValueError "number sections must be larger than 0.").
Proof.
  split; [reflexivity|].
  apply (empty_dataset_raises (H := Fake.talkative_model)
           (Processor.new Fake.row_by_row)
           (@Processor.Build_DataProcessor Fake.talkative_model Fake.row_by_row
              (Some tt) (Some "qwen3:14b"))
           "empty.xlsx" false);
    [cbn; lia | reflexivity | reflexivity].
Defined.

(** ** Index builder *)

Section VectorDBFacts.
Import VectorDB.
Context `{Collaborators}.

(** The loop keeps the documents of the rows that did not raise. *)
Lemma build_documents_valid todo : forall documents valid_rows,
  fst (build_documents todo documents valid_rows)
  = documents
    ++ omap (fun '(idx, row) => match make_document idx row with
                                | Ok doc => Some doc
                                | Raise _ => None
                                end) todo.
Proof.
  induction todo as [|[idx row] todo IH]; intros documents valid_rows;
    cbn [build_documents omap list_omap].
  - now rewrite app_nil_r.
  - destruct (make_document idx row) as [doc|e]; rewrite IH.
    + now rewrite <- app_assoc.
    + reflexivity.
Qed.

(** The embedding pass raises nothing but a failure of the embedding
    service. *)
Lemma embed_all_raises emb texts e :
  embed_all emb texts = Raise e -> exists what, e = CollaboratorError what.
Proof.
  revert e. induction texts as [|t texts IH]; intros e; cbn [embed_all].
  - discriminate.
  - destruct (embed emb t) as [v|what]; cbn [call bind].
    + destruct (embed_all emb texts) as [vs|e']; cbn [bind]; [discriminate|].
      intros [= <-]. now apply IH.
    + intros [= <-]. now exists what.
Qed.

(** The builder once the workbook is read: no document, no index; else the
    directory is emptied and the store is built from the documents. *)
Lemma build_vector_db_read path dir (fs : filesystem) ref_df :
  read_excel_rows path = Done ref_df ->
  build_vector_db path dir fs
  = match valid_documents ref_df with
    | [] => (fs, Raise no_valid_documents)
    | documents =>
        match call (OllamaEmbeddings "nomic-embed-text") with
        | Raise e => (fs, Raise e)
        | Ok emb => Chroma_from_documents documents emb dir (delete dir fs)
        end
    end.
Proof.
  intros Hread. unfold build_vector_db. rewrite Hread. cbn [call].
  pose proof (build_documents_valid (iterrows ref_df) [] 0) as Hdocs.
  destruct (build_documents (iterrows ref_df) [] 0) as [documents valid_rows].
  cbn [fst app] in Hdocs. fold (valid_documents ref_df) in Hdocs. subst documents.
  destruct (valid_documents ref_df) as [|doc docs]; [reflexivity|].
  destruct (call (OllamaEmbeddings _)) as [emb|e]; [|reflexivity].
  unfold os_path_exists, rmtree. case_bool_decide as Hex; [reflexivity|].
  rewrite delete_id; [reflexivity|].
  destruct (fs !! dir) eqn:Hl; [|reflexivity]. exfalso. apply Hex. now eexists.
Qed.

Lemma Chroma_from_documents_fresh documents emb dir (fs : filesystem) :
  Chroma_from_documents documents emb dir (delete dir fs)
  = match embed_all emb (map page_content documents) with
    | Raise e => (<[dir := []]> fs, Raise e)
    | Ok vectors =>
        (<[dir := zip vectors documents]> fs, Ok (zip vectors documents))
    end.
Proof.
  unfold Chroma_from_documents. rewrite lookup_delete_eq. cbn [default app].
  destruct (embed_all emb _); now rewrite insert_delete_eq.
Qed.
End VectorDBFacts.

(** C6.  Once the workbook is read, the documents of the build are those of
    the rows whose construction does not raise; the build raises the error
    about no valid documents exactly when there is none, and with the
    embedding service up it returns an index of one record per document. *)
Theorem build_vector_db_skips_bad_rows `{Collaborators}
    (path dir : string) (fs : gmap string (list (vector * Document)))
    (ref_df : list (gmap string cell)) :
  read_excel_rows path = Done ref_df ->
  (snd (VectorDB.build_vector_db path dir fs)
   = Raise (ValueError
              "No valid documents created. Check your Excel file structure.")
   <-> VectorDB.valid_documents ref_df = [])
  /\ (forall emb vectors,
        VectorDB.valid_documents ref_df <> [] ->
        OllamaEmbeddings "nomic-embed-text" = Done emb ->
        VectorDB.embed_all emb
          (map page_content (VectorDB.valid_documents ref_df)) = Ok vectors ->
        snd (VectorDB.build_vector_db path dir fs)
        = Ok (zip vectors (VectorDB.valid_documents ref_df))).
Proof.
  intros Hread. rewrite (build_vector_db_read path dir fs ref_df Hread).
  split; [split|].
  - destruct (VectorDB.valid_documents ref_df) as [|doc docs]; [reflexivity|].
    intros Hraise. exfalso.
    destruct (OllamaEmbeddings _) as [emb|what]; cbn [call snd] in Hraise;
      [|discriminate].
    rewrite Chroma_from_documents_fresh in Hraise.
    destruct (VectorDB.embed_all emb _) as [vectors|e] eqn:Hemb;
      cbn [snd] in Hraise; [discriminate|].
    apply embed_all_raises in Hemb as [what ->]. discriminate.
  - now intros ->.
  - intros emb vectors Hne Hemb Hvec.
    destruct (VectorDB.valid_documents ref_df) as [|doc docs] eqn:Hdocs;
      [congruence|].
    rewrite Hemb. cbn [call].
    now rewrite Chroma_from_documents_fresh, Hvec.
Qed.

(** Ten rows of which the third does not convert: the build returns nine
    records. *)
Lemma build_vector_db_skips_bad_rows_witness :
  read_excel_rows (Collaborators := Fake.reference_builder) "ten.xlsx"
  = Done Fake.ten_rows
  /\ length (VectorDB.valid_documents (H := Fake.reference_builder)
               Fake.ten_rows) = 9%nat
  /\ snd (VectorDB.build_vector_db (H := Fake.reference_builder)
            "ten.xlsx" "./chroma_db" Fake.old_files)
     = Ok (zip (map (fun doc => String.length (page_content doc))
                    (VectorDB.valid_documents (H := Fake.reference_builder)
                       Fake.ten_rows))
               (VectorDB.valid_documents (H := Fake.reference_builder)
                  Fake.ten_rows)).
Proof.
  split; [reflexivity|]. split; [reflexivity|].
  destruct (build_vector_db_skips_bad_rows (H := Fake.reference_builder)
              "ten.xlsx" "./chroma_db" Fake.old_files Fake.ten_rows eq_refl)
    as [_ Hbuilt].
  apply (Hbuilt tt); [discriminate | reflexivity | reflexivity].
Defined.

(** Ten rows that all fail: the build raises. *)
Example build_vector_db_all_rows_bad :
  VectorDB.build_vector_db (H := Fake.reference_builder)
    "bad.xlsx" "./chroma_db" Fake.old_files
  = (Fake.old_files,
     Raise (ValueError
              "No valid documents created. Check your Excel file structure.")).
Proof. reflexivity. Qed.

Section LabelFacts.
Import VectorDB.
Context `{Collaborators}.

Lemma make_document_labels idx row doc :
  make_document idx row = Ok doc ->
  forall key,
    key ∈ ["clean_dose"; "clean_frequency"; "clean_duration"] ->
    exists f, float_of_cell (label_cell row key) = Ok f /\
              metadata doc !! key = Some (MFloat f).
Proof.
  unfold make_document. intros Hdoc key Hkey.
  fold (label_cell row "clean_dose") in Hdoc.
  fold (label_cell row "clean_frequency") in Hdoc.
  fold (label_cell row "clean_duration") in Hdoc.
  destruct (float_of_cell (label_cell row "clean_dose")) as [dose|] eqn:Hd;
    cbn [bind] in Hdoc; [|discriminate].
  destruct (float_of_cell (label_cell row "clean_frequency")) as [freq|] eqn:Hf;
    cbn [bind] in Hdoc; [|discriminate].
  destruct (float_of_cell (label_cell row "clean_duration")) as [dur|] eqn:Hu;
    cbn [bind] in Hdoc; [|discriminate].
  injection Hdoc as <-. cbn [metadata].
  repeat (apply elem_of_cons in Hkey as [->|Hkey]);
    [exists dose | exists freq | exists dur | now apply elem_of_nil in Hkey];
    (split; [assumption | reflexivity]).
Qed.

(** A label that is missing in the workbook is persisted as zero. *)
Lemma missing_label_is_zero idx row doc key :
  make_document idx row = Ok doc ->
  key ∈ ["clean_dose"; "clean_frequency"; "clean_duration"] ->
  (row !! key = None \/ exists c, row !! key = Some c /\ pd_isna c = true) ->
  metadata doc !! key = Some (MFloat (FNearest 0 0)).
Proof.
  intros Hdoc Hkey Hmissing.
  destruct (make_document_labels idx row doc Hdoc key Hkey) as (f & Hf & ->).
  assert (Hzero : label_cell row key = CNum 0 0).
  { unfold label_cell, row_get.
    destruct Hmissing as [Hnone | (c & Hsome & Hna)].
    - now rewrite Hnone.
    - rewrite Hsome. cbn. now rewrite Hna. }
  rewrite Hzero in Hf. cbn in Hf. congruence.
Qed.

(** A persisted label is a NaN only when the cell holds a text that
    [float] reads as one. *)
Lemma nan_label_from_text idx row doc key :
  make_document idx row = Ok doc ->
  key ∈ ["clean_dose"; "clean_frequency"; "clean_duration"] ->
  metadata doc !! key = Some (MFloat FNaN) ->
  exists s, row !! key = Some (CText s) /\ float_of_text s = Some FNaN.
Proof.
  intros Hdoc Hkey Hnan.
  destruct (make_document_labels idx row doc Hdoc key Hkey) as (f & Hf & Hmd).
  rewrite Hmd in Hnan. injection Hnan as ->.
  unfold label_cell, row_get in Hf.
  destruct (row !! key) as [c|]; cbn [default] in Hf; [|discriminate].
  destruct c as [| | |m e|b|s|stamp]; cbn in Hf; try discriminate.
  exists s. split; [reflexivity|].
  destruct (float_of_text s) as [f|]; [|discriminate]. congruence.
Qed.
End LabelFacts.

(** C7, where the code departs from it.  A row whose dose cell holds the text
    NAN is no missing value for pandas and converts to a float: the label is
    not set to zero, and the document built for the row, the one the build
    hands to the store, carries a NaN dose. *)
Theorem nan_text_label_reaches_document :
  VectorDB.pd_isna (CText "NAN") = false
  /\ VectorDB.float_of_cell (CText "NAN") = Ok FNaN
  /\ (forall `{Collaborators} (idx : nat),
        exists doc,
          VectorDB.make_document idx Fake.nan_row = Ok doc /\
          metadata doc !! "clean_dose" = Some (MFloat FNaN)).
Proof.
  split; [reflexivity|]. split; [reflexivity|].
  intros W idx. eexists. split; reflexivity.
Qed.

(** C8.  A build that returns an index has written it over an emptied
    directory: the directory holds the records of this build and nothing of
    what it held before, the other directories are as they were. *)
Theorem build_vector_db_replaces_index `{Collaborators}
    (path dir : string) (fs fs' : gmap string (list (vector * Document)))
    (index : list (vector * Document)) :
  VectorDB.build_vector_db path dir fs = (fs', Ok index) ->
  exists ref_df emb vectors,
    read_excel_rows path = Done ref_df /\
    OllamaEmbeddings "nomic-embed-text" = Done emb /\
    VectorDB.embed_all emb (map page_content (VectorDB.valid_documents ref_df))
    = Ok vectors /\
    index = zip vectors (VectorDB.valid_documents ref_df) /\
    fs' = <[dir := index]> (VectorDB.rmtree dir fs) /\
    VectorDB.Chroma_from_documents (VectorDB.valid_documents ref_df) emb dir
      (VectorDB.rmtree dir fs) = (fs', Ok index).
Proof.
  intros Hbuild.
  destruct (read_excel_rows path) as [ref_df|what] eqn:Hread.
  2: { unfold VectorDB.build_vector_db in Hbuild. rewrite Hread in Hbuild.
       discriminate. }
  rewrite (build_vector_db_read path dir fs ref_df Hread) in Hbuild.
  destruct (VectorDB.valid_documents ref_df) as [|doc docs] eqn:Hdocs;
    [discriminate|].
  destruct (OllamaEmbeddings "nomic-embed-text") as [emb|what] eqn:Hemb;
    cbn [call] in Hbuild; [|discriminate].
  pose proof Hbuild as Hstore.
  rewrite Chroma_from_documents_fresh in Hbuild.
  destruct (VectorDB.embed_all emb _) as [vectors|e] eqn:Hvec; [|discriminate].
  injection Hbuild as <- <-.
  exists ref_df, emb, vectors. rewrite Hdocs.
  repeat (split; [reflexivity || assumption|]).
  split; [|exact Hstore].
  unfold VectorDB.rmtree. now rewrite insert_delete_eq.
Qed.

(** A build over a directory that holds an index already. *)
Lemma build_vector_db_replaces_index_witness :
  Fake.old_files !! "./chroma_db" = Some [(26%nat, Fake.old_record)]
  /\ fst (VectorDB.build_vector_db (H := Fake.reference_builder)
            "ten.xlsx" "./chroma_db" Fake.old_files)
     = <[ "./chroma_db" :=
            zip (map (fun doc => String.length (page_content doc))
                     (VectorDB.valid_documents (H := Fake.reference_builder)
                        Fake.ten_rows))
                (VectorDB.valid_documents (H := Fake.reference_builder)
                   Fake.ten_rows) ]>
         (VectorDB.rmtree (H := Fake.reference_builder)
            "./chroma_db" Fake.old_files).
Proof.
  split; [reflexivity|].
  assert (Hrun :
    VectorDB.build_vector_db (H := Fake.reference_builder)
      "ten.xlsx" "./chroma_db" Fake.old_files
    = (fst (VectorDB.build_vector_db (H := Fake.reference_builder)
              "ten.xlsx" "./chroma_db" Fake.old_files),
       Ok (zip (map (fun doc => String.length (page_content doc))
                    (VectorDB.valid_documents (H := Fake.reference_builder)
                       Fake.ten_rows))
               (VectorDB.valid_documents (H := Fake.reference_builder)
                  Fake.ten_rows)))).
  { vm_compute. reflexivity. }
  destruct (build_vector_db_replaces_index (H := Fake.reference_builder)
              "ten.xlsx" "./chroma_db" Fake.old_files _ _ Hrun)
    as (ref_df & emb & vectors & _ & _ & _ & _ & Hfs & _).
  exact Hfs.
Defined.

(** * Further properties *)

(** ** Batcher *)

Section BatcherMore.
Import Batcher.
Context {A : Type}.
Implicit Types (df : list A).

(** The batches and their sizes, with the section count tied to the
    ceiling the code computes. *)
Lemma split_data_into_chunks_sizes df (C : Z) :
  df <> [] -> 0 < C ->
  exists (k : nat) (chunks : list (list A)),
    (0 < k <= length df)%nat /\
    (Z.of_nat k - 1) * C < Z.of_nat (length df) <= Z.of_nat k * C /\
    math_ceil_div (Z.of_nat (length df)) C = Ok (Z.of_nat k) /\
    split_data_into_chunks C df = Ok chunks /\
    length chunks = k /\
    map length chunks
    = replicate (length df mod k) (length df / k + 1)%nat ++
      replicate (k - length df mod k) (length df / k)%nat.
Proof.
  intros Hne HC.
  destruct (split_data_into_chunks_reshape df C Hne HC) as (k & Hk & Hceil & Heq).
  destruct (math_ceil_div_spec (Z.of_nat (length df)) C HC) as (k' & Hk' & Hceil').
  pose proof (Nat.mod_upper_bound (length df) k ltac:(lia)) as Hr.
  assert (Hlens : map length
            (reshape (replicate (length df mod k) (length df / k + 1)%nat ++
                      replicate (k - length df mod k) (length df / k)%nat) df)
          = replicate (length df mod k) (length df / k + 1)%nat ++
            replicate (k - length df mod k) (length df / k)%nat).
  { apply lengths_reshape.
    pose proof (section_sizes_sum (length df) k Hk) as Hs.
    unfold section_sizes in Hs. cbn [app tail] in Hs. lia. }
  eexists k, _. split; [nia|]. split; [exact Hceil|].
  split; [rewrite Hk'; f_equal; nia|]. split; [exact Heq|].
  split; [|exact Hlens].
  rewrite <- (length_map length), Hlens, length_app, !length_replicate. lia.
Qed.

Lemma split_nonpositive_chunk_size df (C : Z) :
  C <= 0 ->
  split_data_into_chunks C df
  = Raise (if C =? 0 then ZeroDivisionError
           else ValueError "number sections must be larger than 0.").
Proof.
  intros HC. unfold split_data_into_chunks, math_ceil_div.
  destruct (Z.eqb_spec C 0) as [->|Hnz]; [reflexivity|].
  cbn [bind]. unfold array_split.
  assert (Hq : 0 <= (- Z.of_nat (length df)) / C).
  { rewrite <- Z.div_opp_opp by lia. rewrite Z.opp_involutive.
    apply Z.div_pos; lia. }
  destruct (Z.leb_spec (- (- Z.of_nat (length df) / C)) 0); [reflexivity|lia].
Qed.

Lemma split_no_rows (C : Z) :
  0 < C ->
  split_data_into_chunks C (@nil A)
  = Raise (ValueError "number sections must be larger than 0.").
Proof.
  intros HC. unfold split_data_into_chunks, math_ceil_div.
  destruct (Z.eqb_spec C 0); [lia|].
  cbn [length Z.of_nat Z.opp bind]. now rewrite Z.div_0_l by lia.
Qed.

(** A split that returns batches returns as many as the ceiling of the
    row count over the chunk size. *)
Lemma split_count df (C : Z) chunks :
  split_data_into_chunks C df = Ok chunks ->
  math_ceil_div (Z.of_nat (length df)) C = Ok (Z.of_nat (length chunks)).
Proof.
  intros Hsplit.
  destruct (Z.le_gt_cases C 0) as [HC|HC].
  { rewrite split_nonpositive_chunk_size in Hsplit by exact HC. discriminate. }
  destruct df as [|x df].
  { rewrite split_no_rows in Hsplit by lia. discriminate. }
  destruct (split_data_into_chunks_sizes (x :: df) C ltac:(discriminate) ltac:(lia))
    as (k & chunks' & _ & _ & Hceil & Heq & Hlen & _).
  rewrite Hsplit in Heq. injection Heq as <-. now rewrite Hlen.
Qed.
End BatcherMore.

(** X1.  A chunk size of zero makes the batcher raise a division error and a
    chunk size below zero a value error, whatever the dataset. *)
Theorem split_data_into_chunks_bad_chunk_size {A} (df : list A) (C : Z) :
  C <= 0 ->
  Batcher.split_data_into_chunks C df
  = Raise (if C =? 0 then ZeroDivisionError
           else ValueError "number sections must be larger than 0.").
Proof. apply split_nonpositive_chunk_size. Qed.

Lemma split_data_into_chunks_bad_chunk_size_witness :
  Batcher.split_data_into_chunks (-10) (seq 0 25)
  = Raise (ValueError "number sections must be larger than 0.")
  /\ Batcher.split_data_into_chunks 0 (seq 0 25) = Raise ZeroDivisionError.
Proof.
  split.
  - apply (split_data_into_chunks_bad_chunk_size (seq 0 25) (-10)). lia.
  - apply (split_data_into_chunks_bad_chunk_size (seq 0 25) 0). lia.
Defined.

(** X2.  On a dataset that is not empty and with a chunk size above zero no
    batch is empty. *)
Theorem split_data_into_chunks_no_empty_chunk {A} (df : list A) (C : Z) :
  df <> [] -> 0 < C ->
  exists chunks,
    Batcher.split_data_into_chunks C df = Ok chunks /\
    Forall (fun chunk => chunk <> []) chunks.
Proof.
  intros Hne HC.
  destruct (split_data_into_chunks_sizes df C Hne HC)
    as (k & chunks & Hk & _ & _ & Heq & _ & Hlens).
  exists chunks. split; [exact Heq|].
  apply Forall_forall. intros chunk Hin ->.
  assert (Hs : In 0%nat (map length chunks)).
  { change 0%nat with (length (@nil A)). apply in_map. now apply list_elem_of_In. }
  rewrite Hlens in Hs.
  pose proof (Nat.div_mod_eq (length df) k) as Hdm.
  pose proof (Nat.mod_upper_bound (length df) k ltac:(lia)) as Hr.
  assert (1 <= length df / k)%nat by (apply Nat.div_le_lower_bound; lia).
  apply in_app_or in Hs.
  destruct Hs as [Hs|Hs]; apply list_elem_of_In, elem_of_replicate in Hs; lia.
Qed.

Lemma split_data_into_chunks_no_empty_chunk_witness :
  exists chunks,
    Batcher.split_data_into_chunks 10 (seq 0 25) = Ok chunks /\
    Forall (fun chunk => chunk <> []) chunks.
Proof.
  apply (split_data_into_chunks_no_empty_chunk (seq 0 25) 10);
    [discriminate | lia].
Defined.

(** X3.  When the chunk size divides the number of rows, every batch has
    exactly that many rows. *)
Theorem split_data_into_chunks_exact {A} (df : list A) (C : Z) :
  df <> [] -> 0 < C -> Z.of_nat (length df) mod C = 0 ->
  exists chunks,
    Batcher.split_data_into_chunks C df = Ok chunks /\
    Z.of_nat (length chunks) * C = Z.of_nat (length df) /\
    Forall (fun chunk => Z.of_nat (length chunk) = C) chunks.
Proof.
  intros Hne HC Hdiv.
  destruct (split_data_into_chunks_sizes df C Hne HC)
    as (k & chunks & Hk & Hceil & _ & Heq & Hlen & Hlens).
  exists chunks. split; [exact Heq|].
  pose proof (Z.div_mod (Z.of_nat (length df)) C ltac:(lia)) as Hdm.
  rewrite Hdiv in Hdm. revert Hdm.
  generalize (Z.of_nat (length df) / C). intros m Hdm.
  assert (Hm : m = Z.of_nat k).
  { assert (Z.of_nat k - 1 < m) by nia. assert (m <= Z.of_nat k) by nia. lia. }
  subst m.
  assert (HN : length df = (Z.to_nat C * k)%nat) by nia.
  split; [rewrite Hlen; lia|].
  apply Forall_forall. intros chunk Hin.
  assert (Hs : In (length chunk) (map length chunks)).
  { apply in_map. now apply list_elem_of_In. }
  rewrite Hlens, HN in Hs.
  rewrite Nat.Div0.mod_mul, Nat.div_mul in Hs by lia.
  cbn [replicate app] in Hs.
  apply list_elem_of_In, elem_of_replicate in Hs. lia.
Qed.

Lemma split_data_into_chunks_exact_witness :
  exists chunks,
    Batcher.split_data_into_chunks 10 (seq 0 30) = Ok chunks /\
    Z.of_nat (length chunks) * 10 = Z.of_nat (length (seq 0 30)) /\
    Forall (fun chunk => Z.of_nat (length chunk) = 10) chunks.
Proof.
  apply (split_data_into_chunks_exact (seq 0 30) 10);
    [discriminate | lia | reflexivity].
Defined.

(** X4.  A dataset of at most the chunk size comes back as one batch, the
    dataset itself. *)
Theorem split_data_into_chunks_single {A} (df : list A) (C : Z) :
  df <> [] -> Z.of_nat (length df) <= C ->
  Batcher.split_data_into_chunks C df = Ok [df].
Proof.
  intros Hne HC.
  assert (0 < length df)%nat by (destruct df; [congruence|cbn; lia]).
  destruct (split_data_into_chunks_reshape df C Hne ltac:(lia))
    as (k & Hk & Hceil & Heq).
  assert (k = 1%nat) as -> by nia.
  rewrite Heq. rewrite Nat.mod_1_r, Nat.div_1_r. cbn.
  now rewrite take_ge by lia.
Qed.

Lemma split_data_into_chunks_single_witness :
  Batcher.split_data_into_chunks 10 (seq 0 7) = Ok [seq 0 7].
Proof.
  apply (split_data_into_chunks_single (seq 0 7) 10); [discriminate | cbn; lia].
Defined.

(** ** Application and model choice *)

(** X5.  Whenever the batcher returns batches, the number of chunks the
    application reports for the same dataset and configuration is the number
    of batches. *)
Theorem chunks_processed_counts_chunks `{Collaborators}
    (self : Processor.DataProcessor) (df : list (list cell))
    (chunks : list (list (list cell))) :
  Processor.split_data_into_chunks self df = Ok chunks ->
  App.chunks_processed (length df) (Processor.config self)
  = Ok (Z.of_nat (length chunks)).
Proof. apply split_count. Qed.

Lemma chunks_processed_counts_chunks_witness :
  App.chunks_processed (length Fake.three_rows) Fake.row_by_row = Ok 3.
Proof.
  apply (chunks_processed_counts_chunks (H := Fake.flaky_model)
           (Processor.new Fake.row_by_row) Fake.three_rows
           [[[CText "a"]]; [[CText "b"]]; [[CText "c"]]]).
  reflexivity.
Defined.

(** X6.  [choose_model] takes the indices from -4 to 3, the negative ones
    counting from the end of the list, and raises an index error on every
    other number before any model is created. *)
Theorem choose_model_index `{Collaborators} (n : Z) :
  (n < -4 \/ 4 <= n ->
   Processor.choose_model n = Raise (IndexError "list index out of range"))
  /\ (-4 <= n < 4 ->
      exists name,
        Processor.models !! Z.to_nat (n mod 4) = Some name /\
        Processor.choose_model n = call (ChatOllama name)).
Proof.
  unfold Processor.choose_model, Processor.getitem. split.
  - intros [Hlow|Hhigh].
    + destruct (Z.ltb_spec n 0); [|lia].
      cbn [length Processor.models].
      destruct (Z.ltb_spec (n + Z.of_nat 4) 0); [reflexivity|lia].
    + destruct (Z.ltb_spec n 0); [lia|].
      destruct (Z.ltb_spec n 0); [lia|].
      rewrite (proj2 (lookup_ge_None Processor.models (Z.to_nat n)));
        [reflexivity|cbn; lia].
  - intros Hin.
    assert (Hn : n = -4 \/ n = -3 \/ n = -2 \/ n = -1
                 \/ n = 0 \/ n = 1 \/ n = 2 \/ n = 3) by lia.
    repeat (destruct Hn as [->|Hn]); try subst n;
      eexists; (split; [reflexivity|]); reflexivity.
Qed.

Lemma choose_model_index_witness :
  Processor.choose_model (H := Fake.talkative_model) 4
  = Raise (IndexError "list index out of range")
  /\ exists name,
       Processor.models !! Z.to_nat ((-1) mod 4) = Some name /\
       Processor.choose_model (H := Fake.talkative_model) (-1)
       = call (ChatOllama (Collaborators := Fake.talkative_model) name).
Proof.
  destruct (choose_model_index (H := Fake.talkative_model) 4) as [Hout _].
  destruct (choose_model_index (H := Fake.talkative_model) (-1)) as [_ Hin].
  split; [apply Hout; lia | apply Hin; lia].
Defined.

(** X7.  Whatever the text of the model box, the index the application
    configures is one [choose_model] accepts: it selects the model of that
    name when the name is one of the four, and the first model otherwise. *)
Theorem thread_config_model (selected : string) :
  exists name,
    Processor.getitem Processor.models
      (Processor.model_num (App.thread_config selected)) = Ok name
    /\ (selected ∈ Processor.models -> name = selected)
    /\ (selected ∉ Processor.models -> name = "qwen3:14b").
Proof.
  unfold App.thread_config, App.model_map, Processor.models.
  cbn [Processor.model_num].
  destruct (decide (selected = "qwen3:14b")) as [->|H0].
  { eexists. split; [reflexivity|]. split; [reflexivity|].
    intros Hnot. exfalso. apply Hnot.
    repeat first [apply list_elem_of_here | apply list_elem_of_further]. }
  destruct (decide (selected = "qwen3:32b")) as [->|H1].
  { eexists. split; [reflexivity|]. split; [reflexivity|].
    intros Hnot. exfalso. apply Hnot.
    repeat first [apply list_elem_of_here | apply list_elem_of_further]. }
  destruct (decide (selected = "llama3.2:latest")) as [->|H2].
  { eexists. split; [reflexivity|]. split; [reflexivity|].
    intros Hnot. exfalso. apply Hnot.
    repeat first [apply list_elem_of_here | apply list_elem_of_further]. }
  destruct (decide (selected = "gpt-oss:20b")) as [->|H3].
  { eexists. split; [reflexivity|]. split; [reflexivity|].
    intros Hnot. exfalso. apply Hnot.
    repeat first [apply list_elem_of_here | apply list_elem_of_further]. }
  exists "qwen3:14b".
  assert (Hget : (list_to_map [("qwen3:14b", 0); ("qwen3:32b", 1);
                               ("llama3.2:latest", 2); ("gpt-oss:20b", 3)]
                  : gmap string Z) !! selected = None).
  { apply not_elem_of_list_to_map_1. cbn.
    rewrite !elem_of_cons, elem_of_nil. tauto. }
  rewrite Hget. split; [reflexivity|]. split; [|reflexivity].
  rewrite !elem_of_cons, elem_of_nil. tauto.
Qed.

(** ** Runs of the processor *)

Section RunFacts.
Import Processor.
Context `{Collaborators}.

(** The calls the loop makes to the callback: one per chunk, before the
    chunk is processed and whether or not it raises. *)
Lemma process_chunks_log (self : DataProcessor) total chunks :
  forall i results log,
    snd (process_chunks self true total i chunks results log)
    = log ++ map (fun j => (ProcessingChunk (j + 1) total, Some (j, total)))
                 (seq i (length chunks)).
Proof.
  induction chunks as [|chunk chunks IH]; intros i results log;
    cbn [process_chunks length seq map].
  - now rewrite app_nil_r.
  - destruct (_process_chunk self chunk); rewrite IH; cbn [notify];
      now rewrite <- app_assoc.
Qed.
End RunFacts.

(** X8.  With a callback, a run that gets past the split calls it with the
    initializing and the loading messages, then once per chunk, failed or
    not, with the number of the chunk and the progress [i / total] counted
    from zero, then with the finalizing message: the progress passed is
    always below one. *)
Theorem process_data_progress_log `{Collaborators}
    (self self' : Processor.DataProcessor) (path : string)
    (df : list (list cell)) (chunks : list (list (list cell))) :
  Processor.initialize_rag_system self = Ok self' ->
  Processor.load_data path = Ok df ->
  Processor.split_data_into_chunks self' df = Ok chunks ->
  fst (Processor.process_data self path true)
  = [(Processor.Initializing, None); (Processor.Loading, None)]
    ++ map (fun i => (Processor.ProcessingChunk (i + 1) (length chunks),
                      Some (i, length chunks)))
           (seq 0 (length chunks))
    ++ [(Processor.Finalizing, None)].
Proof.
  intros Hinit Hload Hsplit. unfold Processor.process_data.
  rewrite Hinit, Hload. cbn [bind]. rewrite Hsplit.
  pose proof (process_chunks_log self' (length chunks) chunks 0 []
                (Processor.notify true
                   (Processor.notify true [] (Processor.Initializing, None))
                   (Processor.Loading, None))) as Hlog.
  destruct (Processor.process_chunks _ _ _ _ _ _ _) as [results log].
  cbn [snd] in Hlog. subst log. reflexivity.
Qed.

Lemma process_data_progress_log_witness :
  fst (Processor.process_data (H := Fake.flaky_model)
         (Processor.new Fake.row_by_row) "three.xlsx" true)
  = [(Processor.Initializing, None); (Processor.Loading, None);
     (Processor.ProcessingChunk 1 3, Some (0, 3)%nat);
     (Processor.ProcessingChunk 2 3, Some (1, 3)%nat);
     (Processor.ProcessingChunk 3 3, Some (2, 3)%nat);
     (Processor.Finalizing, None)].
Proof.
  apply (process_data_progress_log (H := Fake.flaky_model)
           (Processor.new Fake.row_by_row)
           (@Processor.Build_DataProcessor Fake.flaky_model Fake.row_by_row
              (Some tt) (Some "qwen3:14b"))
           "three.xlsx" Fake.three_rows
           [[[CText "a"]]; [[CText "b"]]; [[CText "c"]]]);
    reflexivity.
Defined.

(** X9.  In a run without a progress callback, the exceptions a caller of
    [process_data] can meet are those of the initialization, of the load and
    of the split, and each of these is passed on as it is; nothing raised
    while a chunk is processed gets out, and the answers, being texts, are
    parsed without an exception. *)
Theorem process_data_raises_before_loop `{Collaborators}
    (self : Processor.DataProcessor) (path : string) (e : exception) :
  snd (Processor.process_data self path false) = Raise e
  <-> Processor.initialize_rag_system self = Raise e
      \/ exists self',
           Processor.initialize_rag_system self = Ok self' /\
           (Processor.load_data path = Raise e
            \/ exists df,
                 Processor.load_data path = Ok df /\
                 Processor.split_data_into_chunks self' df = Raise e).
Proof.
  destruct (Processor.initialize_rag_system self) as [self'|e0] eqn:Hinit.
  2: { unfold Processor.process_data. rewrite Hinit. cbn [snd]. split.
       - intros [= ->]. now left.
       - intros [[= ->]|(self' & [=] & _)]. reflexivity. }
  destruct (Processor.load_data path) as [df|e0] eqn:Hload.
  2: { unfold Processor.process_data. rewrite Hinit, Hload. cbn [bind snd]. split.
       - intros [= ->]. right. exists self'. split; [reflexivity|]. now left.
       - intros [[=]|(s & [= <-] & [[= ->]|(df & [=] & _)])]. reflexivity. }
  destruct (Processor.split_data_into_chunks self' df) as [chunks|e0] eqn:Hsplit.
  2: { unfold Processor.process_data. rewrite Hinit, Hload. cbn [bind].
       rewrite Hsplit. cbn [snd]. split.
       - intros [= ->]. right. exists self'. split; [reflexivity|].
         right. exists df. now split.
       - intros [[=]|(s & [= <-] & [[=]|(d & [= <-] & Hs)])].
         rewrite Hsplit in Hs. now injection Hs as ->. }
  rewrite (process_data_past_split self self' path false df chunks Hinit Hload Hsplit).
  split; [discriminate|].
  intros [[=]|(s & [= <-] & [[=]|(d & [= <-] & Hs)])].
  rewrite Hsplit in Hs. discriminate.
Qed.

(** ** Texts *)

Section StringFacts.
Import PyStr.

Lemma count_append (c : ascii) (s t : string) :
  count c (s +:+ t) = (count c s + count c t)%nat.
Proof.
  induction s as [|d s IH]; [reflexivity|].
  change (String d s +:+ t) with (String d (s +:+ t)).
  cbn [count]. rewrite IH. lia.
Qed.

Lemma count_replace (old new : ascii) (s : string) :
  old <> new -> count old (replace old new s) = 0%nat.
Proof.
  intros Hne. induction s as [|d s IH]; cbn [replace count]; [reflexivity|].
  rewrite IH.
  destruct (Ascii.eqb_spec d old) as [->|Hd].
  - destruct (Ascii.eqb_spec new old); [congruence|reflexivity].
  - destruct (Ascii.eqb_spec d old); [congruence|reflexivity].
Qed.

Lemma count_join (c : ascii) (sep : string) (parts : list string) :
  count c sep = 0%nat ->
  Forall (fun p => count c p = 0%nat) parts ->
  count c (join sep parts) = 0%nat.
Proof.
  intros Hsep Hall. induction Hall as [|p parts Hp Hall IH]; [reflexivity|].
  cbn [join]. destruct parts as [|q parts]; [exact Hp|].
  rewrite !count_append, Hp, Hsep, IH. reflexivity.
Qed.

(** Splitting a text that ends its first piece at a separator. *)
Lemma split_append (sep : ascii) (s t : string) :
  count sep s = 0%nat ->
  split sep (s +:+ String sep t) = s :: split sep t.
Proof.
  induction s as [|d s IH]; intros Hs.
  - change (EmptyString +:+ String sep t) with (String sep t).
    cbn [split]. now rewrite Ascii.eqb_refl.
  - change (String d s +:+ String sep t) with (String d (s +:+ String sep t)).
    cbn [count split] in *.
    destruct (Ascii.eqb d sep); [discriminate|]. now rewrite IH.
Qed.

Lemma split_none (sep : ascii) (s : string) :
  count sep s = 0%nat -> split sep s = [s].
Proof.
  induction s as [|d s IH]; cbn [count split]; intros Hs; [reflexivity|].
  destruct (Ascii.eqb d sep); [discriminate|]. now rewrite IH.
Qed.

(** Joining with a separator and splitting at it gives the parts back. *)
Lemma split_join (sep : ascii) (parts : list string) :
  parts <> [] ->
  Forall (fun p => count sep p = 0%nat) parts ->
  split sep (join (String sep EmptyString) parts) = parts.
Proof.
  intros Hne Hall. induction Hall as [|p parts Hp Hall IH]; [congruence|].
  cbn [join]. destruct parts as [|q parts]; [now apply split_none|].
  change (String sep EmptyString +:+ join (String sep EmptyString) (q :: parts))
    with (String sep (join (String sep EmptyString) (q :: parts))).
  rewrite split_append by exact Hp. now rewrite IH.
Qed.

(** The pieces of a split hold no separator and no more of any other
    character than the text. *)
Lemma split_pieces (sep c : ascii) (s : string) :
  Forall (fun piece => count sep piece = 0%nat /\ (count c piece <= count c s)%nat)
         (split sep s).
Proof.
  induction s as [|d s IH]; cbn [split count].
  - repeat constructor.
  - destruct (Ascii.eqb_spec d sep) as [->|Hd].
    + constructor; [cbn; split; [reflexivity|lia]|].
      eapply Forall_impl; [exact IH|]. cbn. intros piece [? ?]. split; [assumption|lia].
    + destruct (split sep s) as [|piece pieces]; [repeat constructor|].
      * cbn. destruct (Ascii.eqb_spec d sep); [congruence|]. reflexivity.
      * cbn. lia.
      * apply Forall_cons in IH as [[Hp Hc] IH]. constructor.
        -- cbn [count]. destruct (Ascii.eqb_spec d sep); [congruence|].
           split; [exact Hp|]. lia.
        -- eapply Forall_impl; [exact IH|]. cbn. intros q [? ?].
           split; [assumption|lia].
Qed.

Lemma count_lstrip (c : ascii) (s : string) :
  (count c (lstrip s) <= count c s)%nat.
Proof.
  induction s as [|d s IH]; cbn [lstrip count]; [lia|].
  destruct (isspace d); cbn [count]; lia.
Qed.

Lemma count_rstrip (c : ascii) (s : string) :
  (count c (rstrip s) <= count c s)%nat.
Proof.
  induction s as [|d s IH]; cbn [rstrip count]; [lia|].
  destruct (rstrip s) as [|d' t]; [destruct (isspace d)|]; cbn [count] in *; lia.
Qed.

Lemma count_strip (c : ascii) (s : string) :
  (count c (strip s) <= count c s)%nat.
Proof.
  unfold strip. pose proof (count_lstrip c (rstrip s)).
  pose proof (count_rstrip c s). lia.
Qed.

Lemma lstrip_idemp (s : string) : lstrip (lstrip s) = lstrip s.
Proof.
  induction s as [|d s IH]; [reflexivity|]. cbn [lstrip].
  destruct (isspace d) eqn:Hd; [exact IH|]. cbn [lstrip]. now rewrite Hd.
Qed.

Lemma rstrip_cons (d : ascii) (s : string) :
  rstrip (String d s)
  = match rstrip s with
    | EmptyString => if isspace d then EmptyString else String d EmptyString
    | String d' t => String d (String d' t)
    end.
Proof. reflexivity. Qed.

Lemma rstrip_idemp (s : string) : rstrip (rstrip s) = rstrip s.
Proof.
  induction s as [|d s IH]; [reflexivity|]. rewrite rstrip_cons.
  destruct (rstrip s) as [|d' t] eqn:Ht.
  - destruct (isspace d) eqn:Hd; [reflexivity|].
    rewrite rstrip_cons. cbn [rstrip]. now rewrite Hd.
  - rewrite rstrip_cons, IH. reflexivity.
Qed.

Lemma rstrip_lstrip (s : string) : rstrip (lstrip s) = lstrip (rstrip s).
Proof.
  induction s as [|d s IH]; [reflexivity|].
  rewrite rstrip_cons. cbn [lstrip]. destruct (isspace d) eqn:Hd.
  - rewrite IH. destruct (rstrip s) as [|d' t]; [reflexivity|].
    cbn [lstrip]. now rewrite Hd.
  - rewrite rstrip_cons. destruct (rstrip s) as [|d' t]; rewrite ?Hd;
      cbn [lstrip]; now rewrite Hd.
Qed.

(** Trimming a trimmed text changes nothing. *)
Lemma strip_idemp (s : string) : strip (strip s) = strip s.
Proof.
  unfold strip. now rewrite rstrip_lstrip, rstrip_idemp, lstrip_idemp.
Qed.
End StringFacts.

(** X10.  The text of a chunk that is not empty has one line per row: line
    breaks inside the cells are replaced, so the lines of the text are the
    texts of the rows. *)
Theorem chunk_text_one_line_per_row `{Collaborators}
    (chunk : list (list cell)) :
  chunk <> [] ->
  PyStr.split PyStr.newline (Processor.chunk_text_of chunk)
  = map (fun row =>
           PyStr.join " | "
             (map (fun c => PyStr.replace PyStr.newline PyStr.space (str_cell c))
                  row))
        chunk.
Proof.
  intros Hne. unfold Processor.chunk_text_of. apply split_join.
  - now destruct chunk.
  - apply Forall_forall. intros text Hin.
    apply list_elem_of_In, in_map_iff in Hin. destruct Hin as (row & <- & _).
    apply count_join; [reflexivity|].
    apply Forall_forall. intros piece Hin.
    apply list_elem_of_In, in_map_iff in Hin. destruct Hin as (c & <- & _).
    now apply count_replace.
Qed.

Lemma chunk_text_one_line_per_row_witness :
  PyStr.split PyStr.newline
    (Processor.chunk_text_of (H := Fake.talkative_model)
       [[CText "amoxicillin"; CText "take one
twice daily"]; [CText "cefalexin"; CNum 500 0]])
  = ["amoxicillin | take one twice daily"; "cefalexin | 500e0"].
Proof.
  apply (chunk_text_one_line_per_row (H := Fake.talkative_model)
           [[CText "amoxicillin"; CText "take one
twice daily"]; [CText "cefalexin"; CNum 500 0]]).
  discriminate.
Defined.

Section ParserMore.
Import Processor.

(** A field of a kept row is trimmed and holds neither a comma nor a line
    break. *)
Lemma kept_rows_fields (response : string) :
  Forall (Forall (fun f => PyStr.strip f = f
                           /\ PyStr.count PyStr.comma f = 0%nat
                           /\ PyStr.count PyStr.newline f = 0%nat))
         (kept_rows response).
Proof.
  unfold kept_rows. apply Forall_forall. intros row Hin.
  apply list_elem_of_In, in_map_iff in Hin. destruct Hin as (line & <- & Hin).
  apply list_elem_of_In, list_elem_of_filter in Hin. destruct Hin as [_ Hin].
  assert (Hline : PyStr.count PyStr.newline line = 0%nat).
  { pose proof (split_pieces PyStr.newline PyStr.newline (PyStr.strip response))
      as Hp.
    rewrite Forall_forall in Hp. now apply Hp. }
  unfold fields. apply Forall_forall. intros f Hf.
  apply list_elem_of_In, in_map_iff in Hf. destruct Hf as (piece & <- & Hf).
  pose proof (split_pieces PyStr.comma PyStr.newline line) as Hp.
  rewrite Forall_forall in Hp. apply list_elem_of_In, Hp in Hf.
  destruct Hf as [Hcomma Hnl].
  pose proof (count_strip PyStr.comma piece).
  pose proof (count_strip PyStr.newline piece).
  split; [apply strip_idemp|]. lia.
Qed.

Lemma kept_rows_two_commas (response : string) :
  kept_rows response
  = map fields (filter (fun line => PyStr.count PyStr.comma line = 2%nat)
                       (lines_of response)).
Proof.
  unfold kept_rows. f_equal. apply list_filter_iff. intros line.
  apply three_fields_two_commas.
Qed.
End ParserMore.

(** X11.  Every cell of the table the parser returns is a text that is
    trimmed and holds neither a comma nor a line break. *)
Theorem parse_results_fields_clean (results : list AIMessage)
    (table : DataFrame) :
  Processor._parse_results results = Ok table ->
  Forall (Forall (fun c => exists f,
                      c = Some f /\ PyStr.strip f = f
                      /\ PyStr.count PyStr.comma f = 0%nat
                      /\ PyStr.count PyStr.newline f = 0%nat))
         (rows table).
Proof.
  rewrite parse_results_table. intros [= <-]. cbn [rows Processor.table_of].
  apply Forall_forall. intros row Hin.
  apply list_elem_of_In, in_map_iff in Hin. destruct Hin as (r & <- & Hin).
  apply in_flat_map in Hin. destruct Hin as (result & _ & Hin).
  pose proof (kept_rows_fields (content result)) as Hk.
  rewrite Forall_forall in Hk. apply list_elem_of_In, Hk in Hin.
  apply Forall_forall. intros c Hc.
  apply list_elem_of_In, in_map_iff in Hc. destruct Hc as (f & <- & Hf).
  rewrite Forall_forall in Hin. exists f. split; [reflexivity|].
  now apply Hin, list_elem_of_In.
Qed.

Lemma parse_results_fields_clean_witness :
  Forall (Forall (fun c => exists f,
                      c = Some f /\ PyStr.strip f = f
                      /\ PyStr.count PyStr.comma f = 0%nat
                      /\ PyStr.count PyStr.newline f = 0%nat))
         [[Some "2"; Some "500 mg"; Some "7"]].
Proof.
  apply (parse_results_fields_clean
           [{| content := "  2 , 500 mg ,7
no fields here" |}]
           {| columns := ["Daily Frequency"; "Dose"; "Duration"];
              rows := [[Some "2"; Some "500 mg"; Some "7"]] |}).
  reflexivity.
Defined.

(** X12.  The table the parser returns has one row for every line of the
    trimmed responses that holds exactly two commas, whatever else the line
    holds. *)
Theorem parse_results_row_count (results : list AIMessage)
    (table : DataFrame) :
  Processor._parse_results results = Ok table ->
  length (rows table)
  = length (filter (fun line => PyStr.count PyStr.comma line = 2%nat)
                   (flat_map (fun r => Processor.lines_of (content r)) results)).
Proof.
  rewrite parse_results_table. intros [= <-]. cbn [rows Processor.table_of].
  rewrite length_map.
  induction results as [|r results IH]; [reflexivity|].
  cbn [flat_map]. rewrite filter_app, !length_app, IH. f_equal.
  now rewrite kept_rows_two_commas, length_map.
Qed.

Lemma parse_results_row_count_witness :
  length [[Some "Frequency"; Some "Dose"; Some "Duration"];
          [Some "2"; Some "500"; Some "7"]]
  = length (filter (fun line => PyStr.count PyStr.comma line = 2%nat)
              (flat_map (fun r => Processor.lines_of (content r))
                 [{| content := "Here are the values:
Frequency, Dose, Duration
2,500,7
1,250" |}])).
Proof.
  apply (parse_results_row_count
           [{| content := "Here are the values:
Frequency, Dose, Duration
2,500,7
1,250" |}]
           {| columns := ["Daily Frequency"; "Dose"; "Duration"];
              rows := [[Some "Frequency"; Some "Dose"; Some "Duration"];
                       [Some "2"; Some "500"; Some "7"]] |}).
  reflexivity.
Defined.

(** ** Retrieval *)

Section RetrievalFacts.
Import Processor.
Context `{Collaborators}.

Lemma format_examples_all (docs : list Document) (examples : list string) :
  Forall2 (fun doc example => format_example doc = Ok example) docs examples ->
  forall acc, format_examples docs acc = Ok (acc ++ examples).
Proof.
  induction 1 as [|doc example docs examples Hdoc _ IH]; intros acc;
    cbn [format_examples].
  - now rewrite app_nil_r.
  - rewrite Hdoc. cbn [bind]. rewrite IH. now rewrite <- app_assoc.
Qed.
End RetrievalFacts.

(** X13.  When the search answers and every document it returns can be
    formatted, the retriever returns the examples of the documents, in the
    order of the search, joined by line breaks; a search that returns no
    document gives the empty text, not the sentinel. *)
Theorem get_reference_examples_joined `{Collaborators}
    (self : Processor.DataProcessor) (store : vectorstore) (query : string)
    (docs : list Document) (examples : list string) :
  Processor.self_vectorstore self = Some store ->
  similarity_search store query
    (Processor.similarity_search_k (Processor.config self)) = Done docs ->
  Forall2 (fun doc example => Processor.format_example doc = Ok example)
          docs examples ->
  Processor._get_reference_examples self query
  = PyStr.join (String PyStr.newline EmptyString) examples
  /\ (docs = [] -> Processor._get_reference_examples self query = EmptyString).
Proof.
  intros Hstore Hsearch Hall.
  assert (Hjoin : Processor._get_reference_examples self query
                  = PyStr.join (String PyStr.newline EmptyString) examples).
  { unfold Processor._get_reference_examples, Processor.reference_examples_try.
    rewrite Hstore. cbn [bind]. rewrite Hsearch. cbn [call bind].
    now rewrite (format_examples_all docs examples Hall []). }
  split; [exact Hjoin|].
  intros ->. rewrite Hjoin. now apply Forall2_nil_inv_l in Hall as ->.
Qed.

Lemma get_reference_examples_joined_witness :
  Processor._get_reference_examples (H := Fake.two_hits)
    (@Processor.Build_DataProcessor Fake.two_hits Fake.row_by_row
       (Some tt) (Some "qwen3:14b"))
    "penicillin"
  = PyStr.join (String PyStr.newline EmptyString)
      [Fake.old_example; Fake.old_example].
Proof.
  apply (get_reference_examples_joined (H := Fake.two_hits)
           (@Processor.Build_DataProcessor Fake.two_hits Fake.row_by_row
              (Some tt) (Some "qwen3:14b"))
           tt "penicillin" [Fake.old_record; Fake.old_record]
           [Fake.old_example; Fake.old_example]);
    [reflexivity | reflexivity | repeat constructor].
Defined.

(** ** More on the index builder *)

Section BuildFacts.
Import VectorDB.
Context `{Collaborators}.

Lemma make_document_row_id idx row doc :
  make_document idx row = Ok doc ->
  metadata doc !! "row_id" = Some (MInt (Z.of_nat idx)).
Proof.
  unfold make_document. intros Hdoc.
  destruct (float_of_cell _) as [dose|]; cbn [bind] in Hdoc; [|discriminate].
  destruct (float_of_cell _) as [freq|]; cbn [bind] in Hdoc; [|discriminate].
  destruct (float_of_cell _) as [dur|]; cbn [bind] in Hdoc; [|discriminate].
  injection Hdoc as <-. reflexivity.
Qed.

Lemma make_document_keys idx row doc :
  make_document idx row = Ok doc ->
  dom (metadata doc)
  =@{gset string}
    list_to_set ["row_id"; "raw_antibiotic_name"; "raw_dose_quantity";
                 "patient_instructions"; "clean_antibiotic_name";
                 "clean_dose"; "clean_unit_of_measure"; "clean_frequency";
                 "clean_duration"].
Proof.
  unfold make_document. intros Hdoc.
  destruct (float_of_cell _) as [dose|]; cbn [bind] in Hdoc; [|discriminate].
  destruct (float_of_cell _) as [freq|]; cbn [bind] in Hdoc; [|discriminate].
  destruct (float_of_cell _) as [dur|]; cbn [bind] in Hdoc; [|discriminate].
  injection Hdoc as <-. cbn [metadata].
  rewrite !dom_insert_L, dom_empty_L. reflexivity.
Qed.

(** The document of a row is built exactly when its three labels
    convert. *)
Lemma make_document_raises idx row :
  raises (make_document idx row) = true
  <-> exists key,
        key ∈ ["clean_dose"; "clean_frequency"; "clean_duration"] /\
        raises (float_of_cell (label_cell row key)) = true.
Proof.
  unfold make_document.
  fold (label_cell row "clean_dose").
  fold (label_cell row "clean_frequency").
  fold (label_cell row "clean_duration").
  destruct (float_of_cell (label_cell row "clean_dose")) as [dose|] eqn:Hd.
  2: { cbn [bind raises]. split; [|reflexivity]. intros _.
       exists "clean_dose". rewrite Hd. split; [|reflexivity].
       apply list_elem_of_here. }
  destruct (float_of_cell (label_cell row "clean_frequency")) as [freq|] eqn:Hf.
  2: { cbn [bind raises]. split; [|reflexivity]. intros _.
       exists "clean_frequency". rewrite Hf. split; [|reflexivity].
       apply list_elem_of_further, list_elem_of_here. }
  destruct (float_of_cell (label_cell row "clean_duration")) as [dur|] eqn:Hu.
  2: { cbn [bind raises]. split; [|reflexivity]. intros _.
       exists "clean_duration". rewrite Hu. split; [|reflexivity].
       do 2 apply list_elem_of_further. apply list_elem_of_here. }
  cbn [bind raises]. split; [discriminate|].
  intros (key & Hkey & Hraise).
  repeat (apply elem_of_cons in Hkey as [->|Hkey]);
    [rewrite Hd in Hraise | rewrite Hf in Hraise | rewrite Hu in Hraise
    | now apply elem_of_nil in Hkey];
    discriminate.
Qed.

(** A label fails to convert exactly when its cell holds a text that
    [float] rejects, or a date. *)
Lemma label_cell_raises row key :
  raises (float_of_cell (label_cell row key)) = true
  <-> (exists s, row !! key = Some (CText s) /\ float_of_text s = None)
      \/ (exists stamp, row !! key = Some (CTime stamp)).
Proof.
  unfold label_cell, row_get.
  destruct (row !! key) as [c|]; cbn [default].
  2: { cbn. split; [discriminate|]. intros [(s & [=] & _)|(stamp & [=])]. }
  destruct c as [| | |m e|b|s|stamp]; cbn.
  1-5: split; [discriminate|]; intros [(s' & [=] & _)|(stamp' & [=])].
  - destruct (float_of_text s) as [f|] eqn:Hs; cbn.
    + split; [discriminate|].
      intros [(s' & [= <-] & Hnone)|(stamp' & [=])]. congruence.
    + split; [|reflexivity]. intros _. left. now exists s.
  - split; [|reflexivity]. intros _. right. now exists stamp.
Qed.

(** The counter of the loop is the number of documents. *)
Lemma build_documents_count todo : forall documents valid_rows,
  snd (build_documents todo documents valid_rows)
  = (valid_rows
     + (length (fst (build_documents todo documents valid_rows))
        - length documents))%nat.
Proof.
  induction todo as [|[idx row] todo IH]; intros documents valid_rows;
    cbn [build_documents fst snd].
  - lia.
  - destruct (make_document idx row) as [doc|e]; rewrite IH; [|reflexivity].
    rewrite !build_documents_valid, !length_app. cbn [length]. lia.
Qed.

(** The document of a row carries the number of the row: the numbers of
    the documents are those of the rows that are not skipped, in order. *)
Lemma valid_documents_row_ids rows : forall start,
  map (fun doc => metadata doc !! "row_id")
      (omap (fun '(idx, row) => match make_document idx row with
                                | Ok doc => Some doc
                                | Raise _ => None
                                end)
            (zip (seq start (length rows)) rows))
  = map (fun idx => Some (MInt (Z.of_nat idx)))
        (List.filter
           (fun idx => match rows !! (idx - start)%nat with
                       | Some row => negb (raises (make_document idx row))
                       | None => false
                       end)
           (seq start (length rows))).
Proof.
  induction rows as [|row rows IH]; intros start; [reflexivity|].
  cbn [length seq zip zip_with omap list_omap List.filter].
  fold (zip (seq (S start) (length rows)) rows).
  rewrite Nat.sub_diag. cbn [lookup list_lookup].
  assert (Htail :
    List.filter
      (fun idx => match (row :: rows) !! (idx - start)%nat with
                  | Some r => negb (raises (make_document idx r))
                  | None => false
                  end)
      (seq (S start) (length rows))
    = List.filter
        (fun idx => match rows !! (idx - S start)%nat with
                    | Some r => negb (raises (make_document idx r))
                    | None => false
                    end)
        (seq (S start) (length rows))).
  { apply List.filter_ext_in. intros idx Hin. apply in_seq in Hin.
    replace (idx - start)%nat with (S (idx - S start)) by lia. reflexivity. }
  rewrite Htail.
  destruct (make_document start row) as [doc|e] eqn:Hdoc; cbn [raises negb map].
  - rewrite (make_document_row_id start row doc Hdoc). f_equal. apply IH.
  - apply IH.
Qed.

End BuildFacts.



(** X16.  A build that raises the error about no valid documents has
    changed nothing in the file system: the index the directory held is
    still there. *)
Theorem build_vector_db_no_documents_keeps_files `{Collaborators}
    (path dir : string) (fs : gmap string (list (vector * Document))) :
  snd (VectorDB.build_vector_db path dir fs)
  = Raise (ValueError
             "No valid documents created. Check your Excel file structure.") ->
  fst (VectorDB.build_vector_db path dir fs) = fs.
Proof.
  destruct (read_excel_rows path) as [ref_df|what] eqn:Hread.
  2: { unfold VectorDB.build_vector_db. now rewrite Hread. }
  rewrite (build_vector_db_read path dir fs ref_df Hread).
  destruct (VectorDB.valid_documents ref_df) as [|doc docs]; [reflexivity|].
  destruct (OllamaEmbeddings _) as [emb|what]; cbn [call]; [|reflexivity].
  rewrite Chroma_from_documents_fresh.
  destruct (VectorDB.embed_all emb _) as [vectors|e] eqn:Hemb; cbn [snd];
    [discriminate|].
  apply embed_all_raises in Hemb as [what ->]. discriminate.
Qed.

Lemma build_vector_db_no_documents_keeps_files_witness :
  fst (VectorDB.build_vector_db (H := Fake.reference_builder)
         "bad.xlsx" "./chroma_db" Fake.old_files)
  = Fake.old_files.
Proof.
  apply (build_vector_db_no_documents_keeps_files (H := Fake.reference_builder)
           "bad.xlsx" "./chroma_db" Fake.old_files).
  reflexivity.
Defined.

(** X17.  A row is skipped exactly when one of its three numeric labels is a
    text that [float] rejects or a date; neither the other columns nor the
    position of the row matter. *)
Theorem make_document_skips `{Collaborators}
    (idx : nat) (row : gmap string cell) :
  raises (VectorDB.make_document idx row) = true
  <-> exists key,
        key ∈ ["clean_dose"; "clean_frequency"; "clean_duration"] /\
        ((exists s, row !! key = Some (CText s) /\
                    VectorDB.float_of_text s = None)
         \/ (exists stamp, row !! key = Some (CTime stamp))).
Proof.
  rewrite make_document_raises. split; intros (key & Hkey & Hlabel);
    exists key; (split; [exact Hkey|]); now apply label_cell_raises.
Qed.

(** X18.  The row numbers kept in the documents are exactly the positions,
    in the workbook and in its order, of the rows whose document could be
    built: every document carries the position of its own row, skipped rows
    leave gaps and nothing is renumbered. *)
Theorem valid_documents_keep_row_numbers `{Collaborators}
    (ref_df : list (gmap string cell)) :
  map (fun doc => metadata doc !! "row_id") (VectorDB.valid_documents ref_df)
  = map (fun idx => Some (MInt (Z.of_nat idx)))
        (List.filter
           (fun idx => match ref_df !! idx with
                       | Some row =>
                           negb (raises (VectorDB.make_document idx row))
                       | None => false
                       end)
           (seq 0 (length ref_df))).
Proof.
  unfold VectorDB.valid_documents, VectorDB.iterrows.
  rewrite (valid_documents_row_ids ref_df 0). f_equal.
  apply List.filter_ext. intros idx. now rewrite Nat.sub_0_r.
Qed.

(** Ten rows of which the third is skipped: the numbers jump from 1 to 3. *)
Example ten_rows_row_numbers :
  map (fun doc => metadata doc !! "row_id")
      (VectorDB.valid_documents (H := Fake.reference_builder) Fake.ten_rows)
  = map (fun idx => Some (MInt idx)) [0; 1; 3; 4; 5; 6; 7; 8; 9].
Proof. reflexivity. Qed.

(** X19.  The metadata of every document has the same nine keys. *)
Theorem make_document_metadata_keys `{Collaborators}
    (idx : nat) (row : gmap string cell) (doc : Document) :
  VectorDB.make_document idx row = Ok doc ->
  dom (metadata doc)
  =@{gset string}
    list_to_set ["row_id"; "raw_antibiotic_name"; "raw_dose_quantity";
                 "patient_instructions"; "clean_antibiotic_name";
                 "clean_dose"; "clean_unit_of_measure"; "clean_frequency";
                 "clean_duration"].
Proof. apply make_document_keys. Qed.

Lemma make_document_metadata_keys_witness :
  exists doc,
    VectorDB.make_document (H := Fake.reference_builder) 0 ∅ = Ok doc /\
    dom (metadata doc)
    =@{gset string}
      list_to_set ["row_id"; "raw_antibiotic_name"; "raw_dose_quantity";
                   "patient_instructions"; "clean_antibiotic_name";
                   "clean_dose"; "clean_unit_of_measure"; "clean_frequency";
                   "clean_duration"].
Proof.
  eexists. split; [reflexivity|].
  apply (make_document_metadata_keys (H := Fake.reference_builder) 0 ∅).
  reflexivity.
Defined.

(** X20.  A numeric label whose column is absent or whose cell is a missing
    value is persisted as zero. *)
Theorem missing_label_persisted_as_zero `{Collaborators}
    (idx : nat) (row : gmap string cell) (doc : Document) (key : string) :
  VectorDB.make_document idx row = Ok doc ->
  key ∈ ["clean_dose"; "clean_frequency"; "clean_duration"] ->
  (row !! key = None
   \/ exists c, row !! key = Some c /\ VectorDB.pd_isna c = true) ->
  metadata doc !! key = Some (MFloat (FNearest 0 0)).
Proof. apply missing_label_is_zero. Qed.

Lemma missing_label_persisted_as_zero_witness :
  exists doc,
    VectorDB.make_document (H := Fake.reference_builder) 4
      (Fake.reference_row CNaN) = Ok doc /\
    metadata doc !! "clean_dose" = Some (MFloat (FNearest 0 0)).
Proof.
  eexists. split; [reflexivity|].
  apply (missing_label_persisted_as_zero (H := Fake.reference_builder) 4
           (Fake.reference_row CNaN) _ "clean_dose");
    [reflexivity | apply list_elem_of_here |].
  right. exists CNaN. split; reflexivity.
Defined.

(** X21.  A persisted numeric label is a NaN only when the cell of the row
    holds a text that [float] reads as a NaN. *)
Theorem nan_label_only_from_text `{Collaborators}
    (idx : nat) (row : gmap string cell) (doc : Document) (key : string) :
  VectorDB.make_document idx row = Ok doc ->
  key ∈ ["clean_dose"; "clean_frequency"; "clean_duration"] ->
  metadata doc !! key = Some (MFloat FNaN) ->
  exists s, row !! key = Some (CText s) /\
            VectorDB.float_of_text s = Some FNaN.
Proof. apply nan_label_from_text. Qed.

Lemma nan_label_only_from_text_witness :
  exists s, Fake.nan_row !! "clean_dose" = Some (CText s) /\
            VectorDB.float_of_text s = Some FNaN.
Proof.
  destruct (VectorDB.make_document (H := Fake.reference_builder) 0 Fake.nan_row)
    as [doc|e] eqn:Hdoc; [|vm_compute in Hdoc; discriminate].
  apply (nan_label_only_from_text (H := Fake.reference_builder) 0
           Fake.nan_row doc "clean_dose" Hdoc); [apply list_elem_of_here|].
  vm_compute in Hdoc. injection Hdoc as <-. reflexivity.
Defined.

(** X22.  The count of valid rows the build reports is the number of
    documents it has made. *)
Theorem build_documents_counts_documents `{Collaborators}
    (ref_df : list (gmap string cell)) :
  snd (VectorDB.build_documents (VectorDB.iterrows ref_df) [] 0)
  = length (VectorDB.valid_documents ref_df).
Proof.
  rewrite build_documents_count, build_documents_valid. cbn [app length].
  unfold VectorDB.valid_documents. lia.
Qed.

(** X23.  After a successful initialization both handles are set, so the
    processing of a chunk comes down to the call of the model on the text of
    the chunk and the retrieved reference: a chunk is lost only when that
    call fails. *)
Theorem initialized_chunk_calls_model `{Collaborators}
    (self self' : Processor.DataProcessor) (chunk : list (list cell)) :
  Processor.initialize_rag_system self = Ok self' ->
  exists store model,
    Processor.self_vectorstore self' = Some store /\
    Processor.self_model self' = Some model /\
    Processor._process_chunk self' chunk
    = call (chain_invoke Processor.template model
              {| data := Processor.chunk_text_of chunk;
                 reference :=
                   Processor._get_reference_examples self'
                     (Processor.chunk_text_of chunk);
                 prompt := Processor._get_extraction_prompt;
                 format := Processor._get_format_instructions |}).
Proof.
  unfold Processor.initialize_rag_system. intros Hinit.
  destruct (call (OllamaEmbeddings _)) as [emb|]; cbn [bind] in Hinit;
    [|discriminate].
  destruct (call (Chroma _ _)) as [store|]; cbn [bind] in Hinit; [|discriminate].
  destruct (Processor.choose_model _) as [model|]; cbn [bind] in Hinit;
    [|discriminate].
  injection Hinit as <-. exists store, model.
  split; [reflexivity|]. split; reflexivity.
Qed.

Lemma initialized_chunk_calls_model_witness :
  Processor._process_chunk (H := Fake.flaky_model)
    (@Processor.Build_DataProcessor Fake.flaky_model Fake.row_by_row
       (Some tt) (Some "qwen3:14b"))
    [[CText "b"]]
  = Raise (CollaboratorError "model call failed").
Proof.
  destruct (initialized_chunk_calls_model (H := Fake.flaky_model)
              (Processor.new Fake.row_by_row)
              (@Processor.Build_DataProcessor Fake.flaky_model Fake.row_by_row
                 (Some tt) (Some "qwen3:14b"))
              [[CText "b"]] eq_refl)
    as (store & model & _ & Hmodel & Hchunk).
  rewrite Hchunk. injection Hmodel as <-. reflexivity.
Defined.
